(** * A shallow embedding of package s3 (client.go)

    The package wraps an HTTP client: [Client.Do] probes the length of a
    seekable body, fills in a [Date] header, signs the request and hands
    it to the transport; [Signer.Sign] resolves keys and service and
    delegates to [Service.Sign]; [findLen] measures a stream with three
    seeks.

    Conventions of the embedding:
    - Go's [int64] is [Z] with the wrap-around of its arithmetic written
      out ([wrap64]);
    - an [error] is its message, a nilable error is [option error];
    - a pointer or func value that may be nil is an [option]; a map that
      may be nil has a constructor for the nil map ([NilHeader]);
    - a mutated [*http.Request] is threaded through explicitly;
    - a run-time panic is an explicit outcome ([Panic], [Panicked]);
    - calls that leave the package (clock, signer, transport) are
      recorded in a trace, so that "never sent" can be stated.

    The first part holds the definitions, the second the properties. *)

From Stdlib Require Import ZArith Lia List.
From stdpp Require Import base gmap strings.

Local Open Scope Z_scope.

(** * Part I: the program *)

(** ** Machine integers *)

Definition int64_min : Z := - 2 ^ 63.
Definition int64_max : Z := 2 ^ 63 - 1.

Definition in_int64 (z : Z) : Prop := int64_min <= z <= int64_max.

(** Two's complement reduction of an integer to 64 bits. *)
Definition wrap64 (z : Z) : Z := (z + 2 ^ 63) mod 2 ^ 64 - 2 ^ 63.

Definition add64 (a b : Z) : Z := wrap64 (a + b).
Definition sub64 (a b : Z) : Z := wrap64 (a - b).

(** ** Errors and panics *)

Definition error : Type := string.

(** [fmt.Errorf(prefix + "%v", err)]: the message of the new error. *)
Definition Errorf (prefix : string) (err : error) : error := prefix +:+ err.

Inductive result (A : Type) : Type :=
| Ret (a : A)
| Panic (msg : string).
Arguments Ret {A} a.
Arguments Panic {A} msg.

(** The run-time error of calling a nil func or dereferencing a nil
    pointer. *)
Definition nilDeref : string :=
  "runtime error: invalid memory address or nil pointer dereference".

(** ** io.Seeker *)

Definition SeekStart : Z := 0.
Definition SeekCurrent : Z := 1.
Definition SeekEnd : Z := 2.

(** [Seek(offset, whence) (int64, error)] on a stream whose state is
    [S]: the new state and the two returned values. *)
Class Seeker (S : Type) : Type :=
  Seek : S -> Z -> Z -> S * (Z * option error).

(** client.go, [findLen]. *)
Definition findLen {S : Type} `{Seeker S} (s : S) : S * (Z * option error) :=
  let '(s, (cur, err)) := Seek s 0 1 in
  match err with
  | Some e => (s, (0, Some (Errorf "cannot seek: " e)))
  | None =>
    let '(s, (end_, err)) := Seek s 0 2 in
    match err with
    | Some e => (s, (0, Some (Errorf "cannot seek: " e)))
    | None =>
      let '(s, (_, err)) := Seek s cur 0 in
      match err with
      | Some e => (s, (0, Some (Errorf "cannot seek: " e)))
      | None =>
        if cur >? end_
        then (s, (0, Some "cannot find length, current position is past end"))
        else (s, (sub64 end_ cur, None))
      end
    end
  end.

(** The error of the last branch of [findLen]. *)
Definition pastEnd : error := "cannot find length, current position is past end".

(** *** Seekers with a position

    The contract of [io.Seeker]: a successful [Seek] moves the offset to
    [offset] relative to the start, the current offset or the end, and
    returns the new offset. *)
Definition seekBase {S : Type} (position extent : S -> Z) (s : S) (whence : Z) : Z :=
  if whence =? SeekStart then 0
  else if whence =? SeekCurrent then position s
  else extent s.

Class LawfulSeeker (S : Type) `{Seeker S} : Type := {
  position : S -> Z;
  extent : S -> Z;
  (* the representation invariant of the stream *)
  wf : S -> Prop;
  wf_position : forall s, wf s -> 0 <= position s <= int64_max;
  wf_extent : forall s, wf s -> 0 <= extent s <= int64_max;
  Seek_wf : forall s offset whence,
    wf s -> in_int64 offset -> wf (Seek s offset whence).1;
  Seek_ok : forall s offset whence s' n,
    wf s -> in_int64 offset -> 0 <= whence <= 2 ->
    Seek s offset whence = (s', (n, None)) ->
    n = add64 (seekBase position extent s whence) offset /\
    position s' = n /\ extent s' = extent s
}.

(** *** strings.Reader

    The reader of the package's examples ([strings.NewReader]): the
    string, the current reading index, and the index of the previous
    rune, which is -1 when no rune was read last. A seek may move the
    index past the end of the string, but not before its start. *)
Record Reader : Type := mkReaderAt { r_s : string; r_i : Z; r_prevRune : Z }.

(** A reader on which no rune was read last. *)
Definition mkReader (s : string) (i : Z) : Reader := mkReaderAt s i (-1).

(** [strings.NewReader(s)], that is [&Reader{s, 0, -1}]. *)
Definition NewReader (s : string) : Reader := mkReader s 0.

Definition Reader_Len (r : Reader) : Z := Z.of_nat (String.length (r_s r)).

Definition Reader_Seek (r : Reader) (offset whence : Z) : Reader * (Z * option error) :=
  (* r.prevRune = -1 *)
  let r := mkReaderAt (r_s r) (r_i r) (-1) in
  let go (abs : Z) :=
    if abs <? 0
    then (r, (0, Some "strings.Reader.Seek: negative position"))
    else (mkReaderAt (r_s r) abs (r_prevRune r), (abs, None)) in   (* r.i = abs *)
  if whence =? SeekStart then go offset
  else if whence =? SeekCurrent then go (add64 (r_i r) offset)
  else if whence =? SeekEnd then go (add64 (Reader_Len r) offset)
  else (r, (0, Some "strings.Reader.Seek: invalid whence")).

#[export] Instance Reader_Seeker : Seeker Reader := Reader_Seek.

Definition Reader_wf (r : Reader) : Prop :=
  0 <= r_i r <= int64_max /\ Reader_Len r <= int64_max.

(** A stream that cannot seek at all, as a file opened on a pipe. *)
Inductive Pipe : Type := ThePipe.

#[export] Instance Pipe_Seeker : Seeker Pipe :=
  fun p _ _ => (p, (0, Some "seek |0: illegal seek")).

(** ** time.Time and http.TimeFormat

    An instant is its number of seconds since the Unix epoch; a
    [time.Time] also carries the offset of its location, in seconds east
    of UTC, which [Format] applies before it prints the fields. *)
Record Time : Type := mkTime { unixSec : Z; zoneOffset : Z }.

Definition Time_UTC (t : Time) : Time := mkTime (unixSec t) 0.

Definition digit (n : Z) : string :=
  String (Ascii.ascii_of_N (48 + Z.to_N n)) "".

(** The decimal digits of a number that is not negative, most
    significant first; [fuel] bounds their number. *)
Fixpoint decimal (fuel : nat) (n : Z) : string :=
  match fuel with
  | O => ""
  | Datatypes.S fuel =>
      (if n <? 10 then "" else decimal fuel (n / 10)) +:+ digit (n mod 10)
  end.

Definition itoa (n : Z) : string :=
  decimal (Datatypes.S (Z.to_nat (Z.log2 n))) n.

Fixpoint zeros (n : nat) : string :=
  match n with
  | O => ""
  | Datatypes.S n => "0" +:+ zeros n
  end.

(** [appendInt(b, x, width)] of package time: a minus sign for a
    negative [x], then the digits of its absolute value, padded with
    zeros on the left to [width]; wider numbers are printed in full. *)
Definition appendInt (x : Z) (width : nat) : string :=
  let ds := itoa (Z.abs x) in
  (if x <? 0 then "-" else "") +:+ zeros (width - String.length ds) +:+ ds.

Definition dayName (wd : Z) : string :=
  nth (Z.to_nat wd) ["Sun"; "Mon"; "Tue"; "Wed"; "Thu"; "Fri"; "Sat"] "".

Definition monthName (m : Z) : string :=
  nth (Z.to_nat (m - 1))
      ["Jan"; "Feb"; "Mar"; "Apr"; "May"; "Jun";
       "Jul"; "Aug"; "Sep"; "Oct"; "Nov"; "Dec"] "".

(** Year, month and day of the proleptic Gregorian calendar for a number
    of days since 1970-01-01. *)
Definition civil (days : Z) : Z * Z * Z :=
  let z := days + 719468 in
  let era := z / 146097 in
  let doe := z - era * 146097 in
  let yoe := (doe - doe / 1460 + doe / 36524 - doe / 146096) / 365 in
  let doy := doe - (365 * yoe + yoe / 4 - yoe / 100) in
  let mp := (5 * doy + 2) / 153 in
  let d := doy - (153 * mp + 2) / 5 + 1 in
  let m := if mp <? 10 then mp + 3 else mp - 9 in
  let y := yoe + era * 400 + (if m <=? 2 then 1 else 0) in
  (y, m, d).

(** [t.Format(http.TimeFormat)], the layout
    ["Mon, 02 Jan 2006 15:04:05 GMT"]: the fields are those of [t] in
    its own location, the year has at least four digits, and [GMT] is
    literal text of the layout. *)
Definition Format_TimeFormat (t : Time) : string :=
  let abs := unixSec t + zoneOffset t in
  let days := abs / 86400 in
  let secs := abs mod 86400 in
  let '(y, m, d) := civil days in
  dayName ((days + 4) mod 7) +:+ ", " +:+ appendInt d 2 +:+ " " +:+ monthName m
  +:+ " " +:+ appendInt y 4 +:+ " " +:+ appendInt (secs / 3600) 2 +:+ ":"
  +:+ appendInt (secs / 60 mod 60) 2 +:+ ":" +:+ appendInt (secs mod 60) 2 +:+ " GMT".

(** The instants package time formats without overflow in its count of
    absolute seconds. *)
Definition Time_inRange (t : Time) : Prop :=
  - 2 ^ 62 <= unixSec t + zoneOffset t <= 2 ^ 62.

(** ** Requests, responses and the client *)

(** [http.Header] is a Go map from keys to lists of values: either the
    nil map, which can be read but not written, or an allocated one. *)
Inductive HttpHeader : Type :=
| NilHeader
| MapHeader (m : gmap string (list string)).

(** [h[key]]: a nil map has no entries. *)
#[export] Instance HttpHeader_lookup : Lookup string (list string) HttpHeader :=
  fun key h =>
    match h with
    | NilHeader => None
    | MapHeader m => m !! key
    end.

(** The run-time error of a write to a nil map. *)
Definition nilMapAssign : string := "assignment to entry in nil map".

(** The bytes of a header field name (the token characters). *)
Definition validHeaderFieldByte (c : Ascii.ascii) : bool :=
  let n := Ascii.N_of_ascii c in
  ((48 <=? n) && (n <=? 57) || (65 <=? n) && (n <=? 90)
   || (97 <=? n) && (n <=? 122)
   || existsb (N.eqb n) [33; 35; 36; 37; 38; 39; 42; 43; 45; 46; 94; 95; 96; 124; 126])%N.

Fixpoint allValid (s : string) : bool :=
  match s with
  | EmptyString => true
  | String c s => validHeaderFieldByte c && allValid s
  end.

(** Upper case for the first letter and for a letter after a dash,
    lower case for the others. *)
Fixpoint canonicalBytes (upper : bool) (s : string) : string :=
  match s with
  | EmptyString => EmptyString
  | String c s =>
      let n := Ascii.N_of_ascii c in
      let n' := (if upper && (97 <=? n) && (n <=? 122) then n - 32
                 else if negb upper && (65 <=? n) && (n <=? 90) then n + 32
                 else n)%N in
      String (Ascii.ascii_of_N n') (canonicalBytes (N.eqb n' 45) s)
  end.

(** [textproto.CanonicalMIMEHeaderKey]: a key with a byte that is not
    allowed in a field name comes back unchanged. *)
Definition CanonicalMIMEHeaderKey (s : string) : string :=
  if allValid s then canonicalBytes true s else s.

(** [http.Header.Set(key, value)]: the values of the canonical form of
    the key are replaced by the single [value]; on a nil map the
    assignment panics. *)
Definition Header_Set (h : HttpHeader) (key value : string) : result HttpHeader :=
  match h with
  | NilHeader => Panic nilMapAssign
  | MapHeader m => Ret (MapHeader (<[CanonicalMIMEHeaderKey key := [value]]> m))
  end.

(** [_, ok := h[key]] on the header map. *)
Definition Header_has (h : HttpHeader) (key : string) : bool :=
  match h !! key with
  | Some _ => true
  | None => false
  end.

Record Response : Type := mkResponse { StatusCode : Z }.

Section Client.

(** The state of the streams that can seek. *)
Context {S : Type} `{Seeker S}.

(** The dynamic type of a request body: either it implements
    [io.Seeker], and [req.Body.(io.Seeker)] succeeds, or it does not. *)
Inductive ReadCloser : Type :=
| Unseekable
| Seekable (s : S).

Record Request : Type := mkRequest {
  Method : string;
  URL : string;
  Header : HttpHeader;
  Body : option ReadCloser;
  ContentLength : Z
}.

Definition set_Header (req : Request) (h : HttpHeader) : Request :=
  mkRequest (Method req) (URL req) h (Body req) (ContentLength req).

Definition set_Body (req : Request) (b : option ReadCloser) : Request :=
  mkRequest (Method req) (URL req) (Header req) b (ContentLength req).

Definition set_ContentLength (req : Request) (n : Z) : Request :=
  mkRequest (Method req) (URL req) (Header req) (Body req) n.

(** [*http.Client], by what its [Do] answers. *)
Record HttpClient : Type := mkHttpClient {
  HttpClient_Do : Request -> option Response * option error
}.

Record Client : Type := mkClient {
  (* Sign is called to sign every request before sending it. *)
  Client_Sign : option (Request -> result (Request * option error));
  (* Time is used to add a Date header. *)
  Client_Time : option (unit -> Time);
  (* Client is the underlying http client. *)
  Client_Client : option HttpClient
}.

(** [new(s3.Client)]. *)
Definition zeroClient : Client := mkClient None None None.

(** What [Do] did outside the package, in order. *)
Inductive Event : Type :=
| EvTime (t : Time)
| EvSign (req : Request) (res : result (Request * option error))
| EvSend (req : Request).

Inductive Outcome : Type :=
| Returned (resp : option Response) (err : option error)
| Panicked (msg : string).

Record DoResult : Type := mkDoResult {
  final : Request;          (* the caller's request, as [Do] left it *)
  trace : list Event;
  outcome : Outcome
}.

(** [http.DefaultClient]. *)
Variable DefaultClient : HttpClient.

(** client.go, [Client.Do], lines 60 to 73: what [Do] does once the
    length probe is behind it. *)
Definition Do_pipeline (c : Client) (req : Request) : DoResult :=
  (* if _, ok := req.Header["Date"]; !ok {
       if _, ok := req.Header["X-Amz-Date"]; !ok {
         req.Header.Set("Date", c.Time().Format(http.TimeFormat)) } } *)
  let dated : list Event * result Request :=
    if Header_has (Header req) "Date" then ([], Ret req)
    else if Header_has (Header req) "X-Amz-Date" then ([], Ret req)
    else match Client_Time c with
         | None => ([], Panic nilDeref)
         | Some now =>
             let t := now tt in
             ([EvTime t],
              match Header_Set (Header req) "Date" (Format_TimeFormat t) with
              | Panic msg => Panic msg
              | Ret h => Ret (set_Header req h)
              end)
         end in
  match dated with
  | (tr, Panic msg) => mkDoResult req tr (Panicked msg)
  | (tr, Ret req) =>
    (* err := c.Sign(req) *)
    match Client_Sign c with
    | None => mkDoResult req tr (Panicked nilDeref)
    | Some sign =>
      match sign req with
      | Panic msg => mkDoResult req (tr ++ [EvSign req (Panic msg)]) (Panicked msg)
      | Ret (req', Some err) =>
          (* return nil, fmt.Errorf("sign request: %v", err) *)
          mkDoResult req' (tr ++ [EvSign req (Ret (req', Some err))])
                     (Returned None (Some (Errorf "sign request: " err)))
      | Ret (req', None) =>
          (* c1 := c.Client; if c1 == nil { c1 = http.DefaultClient } *)
          let c1 := match Client_Client c with
                    | Some c1 => c1
                    | None => DefaultClient
                    end in
          (* return c1.Do(req) *)
          let '(resp, err) := HttpClient_Do c1 req' in
          mkDoResult req' (tr ++ [EvSign req (Ret (req', None)); EvSend req'])
                     (Returned resp err)
      end
    end
  end.

(** client.go, [Client.Do]. *)
Definition Do (c : Client) (req : Request) : DoResult :=
  (* if req.ContentLength == 0 && req.Body != nil {
       if s, ok := req.Body.(io.Seeker); ok { *)
  match ContentLength req =? 0, Body req with
  | true, Some (Seekable s) =>
      (* req.ContentLength, err = findLen(s) *)
      let '(s, (n, err)) := findLen s in
      let req := set_ContentLength (set_Body req (Some (Seekable s))) n in
      match err with
      | None => mkDoResult req [] (Returned None err)   (* if err == nil { return nil, err } *)
      | Some _ => Do_pipeline c req
      end
  | _, _ => Do_pipeline c req
  end.

End Client.

Arguments ReadCloser S : clear implicits.
Arguments Request S : clear implicits.
Arguments HttpClient S : clear implicits.
Arguments Client S : clear implicits.
Arguments Event S : clear implicits.
Arguments DoResult S : clear implicits.

(** *** The length probe, by itself *)

Section Probe.

Context {S : Type} `{Seeker S}.

(** The request is subject to length probing: its declared length is 0
    and its body is a non-nil seeker. *)
Definition probed (req : Request S) : option S :=
  match ContentLength req =? 0, Body req with
  | true, Some (Seekable s) => Some s
  | _, _ => None
  end.

(** The request as lines 51 to 59 of [Do] leave it. *)
Definition prepared (req : Request S) : Request S :=
  match probed req with
  | Some s =>
      let r := findLen s in
      set_ContentLength (set_Body req (Some (Seekable r.1))) r.2.1
  | None => req
  end.

(** [Do] returns at line 56. *)
Definition returnsEarly (req : Request S) : bool :=
  match probed req with
  | Some s => match (findLen s).2.2 with None => true | Some _ => false end
  | None => false
  end.

(** The request that lines 60 to 64 of [Do] hand to the signer, for a
    request that got past the probe: the prepared request itself when it
    carries a date of either kind, else, with a clock and an allocated
    header map, the prepared request with the [Date] header set. *)
Inductive signerSees (c : Client S) (req : Request S) : Request S -> Prop :=
| sees_dated :
    returnsEarly req = false ->
    is_Some (Header req !! "Date") \/ is_Some (Header req !! "X-Amz-Date") ->
    signerSees c req (prepared req)
| sees_clock now m :
    returnsEarly req = false ->
    Header req !! "Date" = None -> Header req !! "X-Amz-Date" = None ->
    Client_Time c = Some now -> Header req = MapHeader m ->
    signerSees c req
      (set_Header (prepared req)
         (MapHeader (<["Date" := [Format_TimeFormat (now tt)]]> m))).

(** No [EvSend] in a trace: the transport was not called. *)
Definition neverSent (tr : list (Event S)) : Prop :=
  forall r, ~ In (EvSend r) tr.

(** No [EvSign] in a trace: the signer was not called. *)
Definition neverSigned (tr : list (Event S)) : Prop :=
  forall r res, ~ In (EvSign r res) tr.

End Probe.

(** ** The signer *)

(** Modelled from the spec: the credential pair [Keys], declared in a
    file of the package that is not part of the sources at hand; the
    fields [AccessKey] and [SecretKey] are those the package's example
    fills in, the optional token is an empty string when absent. *)
Record Keys : Type := mkKeys {
  AccessKey : string;
  SecretKey : string;
  SecurityToken : string
}.

Section Signer.

Context {S : Type}.

(** The type [Service] and its method
    [func (s *Service) Sign(req *http.Request, keys Keys)] are declared
    elsewhere in the package; they are parameters here. The receiver is
    a pointer and may be nil; the method mutates the request. *)
Variable Service : Type.
Variable Service_Sign : option Service -> Request S -> Keys -> result (Request S).

Record Signer : Type := mkSigner {
  Signer_Keys : option Keys;         (* if nil, DefaultKeys is used *)
  Signer_Service : option Service    (* if nil, DefaultService is used *)
}.

(** The package-level variables [DefaultKeys] and [DefaultService],
    which any caller may assign. *)
Record Globals : Type := mkGlobals {
  DefaultKeys : option Keys;
  DefaultService : option Service
}.

(** [var DefaultSigner = &Signer{}]. *)
Definition DefaultSigner : Signer := mkSigner None None.

(** client.go, [Signer.Sign]. *)
Definition Signer_Sign (g : Globals) (s : Signer) (req : Request S)
  : result (Request S * option error) :=
  let keys := match Signer_Keys s with
              | None => DefaultKeys g
              | Some k => Some k
              end in
  let sv := match Signer_Service s with
            | None => DefaultService g
            | Some sv => Some sv
            end in
  (* sv.Sign(req, *keys) *)
  match keys with
  | None => Panic nilDeref
  | Some k =>
      match Service_Sign sv req k with
      | Panic msg => Panic msg
      | Ret req' => Ret (req', None)     (* return nil *)
      end
  end.

(** The effective credentials, in the words of the specification: the
    signer's own when it has them, else the process-wide default. *)
Inductive resolvesKeys (g : Globals) (s : Signer) : Keys -> Prop :=
| keys_explicit k : Signer_Keys s = Some k -> resolvesKeys g s k
| keys_default k :
    Signer_Keys s = None -> DefaultKeys g = Some k -> resolvesKeys g s k.

(** The effective service, likewise; the default may itself be nil. *)
Inductive resolvesService (g : Globals) (s : Signer) : option Service -> Prop :=
| service_explicit sv : Signer_Service s = Some sv -> resolvesService g s (Some sv)
| service_default : Signer_Service s = None -> resolvesService g s (DefaultService g).

(** What [Signer.Sign] returns around the call of [Service.Sign]. *)
Definition returnsNil (r : result (Request S)) : result (Request S * option error) :=
  match r with
  | Ret req' => Ret (req', None)
  | Panic msg => Panic msg
  end.

End Signer.

Arguments Signer Service : clear implicits.
Arguments Globals Service : clear implicits.
Arguments mkSigner {Service} _ _.
Arguments Signer_Keys {Service} _.
Arguments Signer_Service {Service} _.
Arguments mkGlobals {Service} _ _.
Arguments DefaultKeys {Service} _.
Arguments DefaultService {Service} _.
Arguments DefaultSigner {Service}.
Arguments Signer_Sign {S Service} Service_Sign g s req.
Arguments resolvesKeys {Service} g s _.
Arguments resolvesService {Service} g s _.
Arguments keys_explicit {Service} g s k _.
Arguments keys_default {Service} g s k _ _.
Arguments service_explicit {Service} g s sv _.
Arguments service_default {Service} g s _.

(** ** Get and Put *)

Section Constructors.

Context {S : Type} `{Seeker S}.

(** What [http.NewRequest] looks at in its [io.Reader] argument: does
    the value also have a [Close] method, is it one of the in-memory
    readers whose length the constructor records, and the body it is as
    an [io.ReadCloser]. *)
Record IoReader : Type := mkIoReader {
  has_Close : bool;
  known_Len : option Z;
  as_body : ReadCloser S
}.

(** [url.Parse], by the error it answers (nil for a URL it accepts). *)
Variable url_Parse : string -> option error.

(** [http.NewRequest(method, url, body)]: the URL is parsed, a value
    without [Close] is wrapped in a [NopCloser], which has no [Seek],
    and the header map is allocated and empty ([make(Header)]). *)
Definition NewRequest (method url : string) (body : option IoReader)
  : Request S + error :=
  match url_Parse url with
  | Some err => inr err
  | None =>
      inl (mkRequest method url (MapHeader ∅)
             (match body with
              | None => None
              | Some b => Some (if has_Close b then as_body b else Unseekable)
              end)
             (match body with
              | Some b => default 0 (known_Len b)
              | None => 0
              end))
  end.

Variable DefaultClient : HttpClient S.

(** A constructor error is returned with a nil response, before
    anything leaves the package. *)
Definition failed (err : error) : Outcome * list (Event S) :=
  (Returned None (Some err), []).

(** client.go, [Client.Get]. *)
Definition Get (c : Client S) (url : string) : Outcome * list (Event S) :=
  match NewRequest "GET" url None with
  | inr err => failed err
  | inl req => let r := Do DefaultClient c req in (outcome r, trace r)
  end.

(** client.go, [Client.Put]. *)
Definition Put (c : Client S) (url : string) (body : option IoReader)
  : Outcome * list (Event S) :=
  match NewRequest "GET" url body with
  | inr err => failed err
  | inl req => let r := Do DefaultClient c req in (outcome r, trace r)
  end.

End Constructors.

Arguments IoReader S : clear implicits.

(** ** A test bench *)

(** Modelled from the spec: [Service.Sign], which is declared in a file
    of the package that is not part of the sources at hand. It sets the
    security-token header when the token is not empty, then sets
    [Authorization] to [<scheme> <accessKeyID>:<signature>]. The
    canonicalizer and the signature engine are the parameter
    [signature]. *)
Definition specServiceSign {S Service : Type} (scheme : string)
           (signature : Request S -> Keys -> string)
           (sv : option Service) (req : Request S) (k : Keys) : result (Request S) :=
  let tokened : result (Request S) :=
    if String.eqb (SecurityToken k) "" then Ret req
    else match Header_Set (Header req) "X-Amz-Security-Token" (SecurityToken k) with
         | Panic msg => Panic msg
         | Ret h => Ret (set_Header req h)
         end in
  match tokened with
  | Panic msg => Panic msg
  | Ret req =>
      match Header_Set (Header req) "Authorization"
              (scheme +:+ " " +:+ AccessKey k +:+ ":" +:+ signature req k) with
      | Panic msg => Panic msg
      | Ret h => Ret (set_Header req h)
      end
  end.

Inductive TestService : Type := theService.

(** A stand-in for the keyed digest. Nothing below depends on its value:
    the properties of [Signer.Sign] and [Do] hold for every signer, and
    this one only instantiates them. *)
Definition fixedSignature {S : Type} (req : Request S) (k : Keys) : string :=
  "c2lnbmF0dXJl".

Definition testSign {S : Type}
  : option TestService -> Request S -> Keys -> result (Request S) :=
  specServiceSign "AWS" fixedSignature.

Definition testKeys : Keys := mkKeys "AK" "SK" "".
Definition emptyKeys : Keys := mkKeys "" "" "".
Definition otherKeys : Keys := mkKeys "OTHER" "S2" "".

Definition testGlobals : Globals TestService :=
  mkGlobals (Some testKeys) (Some theService).

(** The process-wide default is an empty credential pair. *)
Definition emptyGlobals : Globals TestService :=
  mkGlobals (Some emptyKeys) (Some theService).

(** No credentials are configured. *)
Definition noKeysGlobals : Globals TestService :=
  mkGlobals None (Some theService).

(** A signer with its own keys and no service of its own. *)
Definition overridingSigner : Signer TestService :=
  mkSigner (Some otherKeys) None.

(** 1994-11-06 08:49:37 UTC. *)
Definition fixedInstant : Time := mkTime 784111777 0.
Definition fixedClock : unit -> Time := fun _ => fixedInstant.

Definition transport200 {S : Type} : HttpClient S :=
  mkHttpClient (fun _ => (Some (mkResponse 200), None)).

Definition transport500 {S : Type} : HttpClient S :=
  mkHttpClient (fun _ => (Some (mkResponse 500), None)).

(** A client with every field set: the default signer over the test
    keys, a fixed clock, and a transport that answers 200. *)
Definition testClient {S : Type} : Client S :=
  mkClient (Some (Signer_Sign testSign testGlobals DefaultSigner))
           (Some fixedClock) (Some transport200).

(** A signer that refuses every request. *)
Definition refusingSign {S : Type} (req : Request S)
  : result (Request S * option error) :=
  Ret (req, Some "no signature today").

(** A client whose signer refuses every request. *)
Definition refusingClient {S : Type} : Client S :=
  mkClient (Some refusingSign) (Some fixedClock) (Some transport200).

(** A client that leaves only the [Client] field nil. *)
Definition noTransportClient {S : Type} : Client S :=
  mkClient (Some (Signer_Sign testSign testGlobals DefaultSigner))
           (Some fixedClock) None.

Definition testURL : string := "https://example.s3.amazonaws.com/foo".

(** A PUT of the twelve bytes ["hello, world"] from a seekable body at
    offset 0 with no declared length, as [http.NewRequest] builds it for
    an open file. *)
Definition helloReq : Request Reader :=
  mkRequest "PUT" testURL (MapHeader ∅) (Some (Seekable (NewReader "hello, world"))) 0.

(** The same request with the body moved past its end. *)
Definition pastEndReq : Request Reader :=
  mkRequest "PUT" testURL (MapHeader ∅) (Some (Seekable (mkReader "hello, world" 20))) 0.

(** The same request with a body that cannot seek. *)
Definition pipeReq : Request Pipe :=
  mkRequest "PUT" testURL (MapHeader ∅) (Some (Seekable ThePipe)) 0.

(** The request of the package's own example: [http.NewRequest] given a
    [*strings.Reader] records the length and hides [Seek]. *)
Definition exampleReq : Request Reader :=
  mkRequest "PUT" testURL (MapHeader {["X-Amz-Acl" := ["public-read"]]})
            (Some Unseekable) 12.

(** A request that brings its own service-specific date. *)
Definition amzDateReq : Request Reader :=
  mkRequest "PUT" testURL
            (MapHeader {["X-Amz-Date" := ["Sun, 06 Nov 1994 08:49:37 GMT"]]})
            (Some Unseekable) 12.

(** An open file of twelve bytes as the body of [Put]. *)
Definition helloFile : IoReader Reader :=
  mkIoReader true None (Seekable (NewReader "hello, world")).

(** *** Further definitions used by the properties *)

(** client.go, [Client.Do], lines 69 to 72: the transport [Do] hands the
    signed request to. *)
Definition transportOf {S : Type} (DefaultClient : HttpClient S) (c : Client S)
  : HttpClient S :=
  match Client_Client c with
  | Some c1 => c1
  | None => DefaultClient
  end.

(** A client whose signer is the [Sign] method of a [Signer], as
    [Client{Sign: signer.Sign}] builds it. *)
Definition usesSigner {S Service : Type}
           (Service_Sign : option Service -> Request S -> Keys -> result (Request S))
           (g : Globals Service) (s : Signer Service) (c : Client S) : Prop :=
  Client_Sign c = Some (Signer_Sign Service_Sign g s).

(** What [Do] can do after the clock: nothing, one call of the signer,
    or one call of the signer that returned a nil error followed by one
    call of the transport on the request the signer returned. *)
Inductive signShape {S : Type} : list (Event S) -> Prop :=
| shape_none : signShape []
| shape_signed r res : signShape [EvSign r res]
| shape_sent r r' : signShape [EvSign r (Ret (r', None)); EvSend r'].

(** The shapes a trace of [Do] can have: the clock at most once, and
    before anything else. *)
Inductive traceShape {S : Type} : list (Event S) -> Prop :=
| shape_timed t rest : signShape rest -> traceShape (EvTime t :: rest)
| shape_untimed rest : signShape rest -> traceShape rest.

(** A request that already carries a [Date] header. *)
Definition datedReq : Request Reader :=
  mkRequest "PUT" testURL (MapHeader {["Date" := ["Thu, 01 Jan 1970 00:00:00 GMT"]]})
            (Some Unseekable) 12.

(** A transport that fails. *)
Definition transportDown {S : Type} : HttpClient S :=
  mkHttpClient (fun _ => (None, Some "dial tcp: connection refused")).

(** A fully configured client over the failing transport. *)
Definition downClient {S : Type} : Client S :=
  mkClient (Some (Signer_Sign testSign testGlobals DefaultSigner))
           (Some fixedClock) (Some transportDown).

(** The package's example request once [Do] has dated it with the fixed
    clock. *)
Definition exampleDated : Request Reader :=
  set_Header exampleReq
    (MapHeader (<["Date" := [Format_TimeFormat fixedInstant]]>
                  {["X-Amz-Acl" := ["public-read"]]})).

(** A request built as a literal, [&http.Request{Method: "PUT", ...}],
    whose header map was never allocated. *)
Definition nilHeaderReq : Request Reader :=
  mkRequest "PUT" testURL NilHeader (Some Unseekable) 12.

(** [strings.NewReader("hello, world")] as the body of [Put]: no [Close]
    method, and a length the constructor records. *)
Definition helloString : IoReader Reader :=
  mkIoReader false (Some 12) (Seekable (NewReader "hello, world")).

(** Case analysis on the membership of an event in a literal trace. *)
Ltac in_cases H :=
  simpl in H; repeat (destruct H as [H|H]; simplify_eq); try contradiction.

(** * Part II: properties *)

(** ** Machine integers *)

Lemma wrap64_in_int64 (z : Z) : in_int64 (wrap64 z).
Proof.
  unfold in_int64, wrap64, int64_min, int64_max.
  pose proof (Z.mod_pos_bound (z + 2 ^ 63) (2 ^ 64) ltac:(lia)). lia.
Qed.

Lemma wrap64_id (z : Z) : in_int64 z -> wrap64 z = z.
Proof.
  unfold in_int64, wrap64, int64_min, int64_max. intros Hz.
  rewrite Z.mod_small; lia.
Qed.

Lemma in_int64_0 : in_int64 0.
Proof. unfold in_int64, int64_min, int64_max. lia. Qed.

Lemma in_int64_nonneg (z : Z) : 0 <= z <= int64_max -> in_int64 z.
Proof. unfold in_int64, int64_min, int64_max. lia. Qed.

Lemma add64_0_r (z : Z) : in_int64 z -> add64 z 0 = z.
Proof. intros Hz. unfold add64. rewrite Z.add_0_r. now apply wrap64_id. Qed.

Lemma add64_0_l (z : Z) : in_int64 z -> add64 0 z = z.
Proof. intros Hz. unfold add64. rewrite Z.add_0_l. now apply wrap64_id. Qed.

Lemma sub64_exact (a b : Z) : in_int64 a -> 0 <= b <= a -> sub64 a b = a - b.
Proof.
  unfold sub64. intros Ha Hb. apply wrap64_id.
  unfold in_int64, int64_min, int64_max in *. lia.
Qed.

(** A seeker that breaks the contract can report a negative offset; the
    difference then wraps, and a negative length comes back without an
    error. *)
Example sub64_wraps : sub64 int64_max (-1) = int64_min.
Proof. reflexivity. Qed.

(** ** The header map *)

Lemma lookup_MapHeader (m : gmap string (list string)) (k : string) :
  MapHeader m !! k = m !! k.
Proof. reflexivity. Qed.

Lemma lookup_NilHeader (k : string) : NilHeader !! k = None.
Proof. reflexivity. Qed.

Lemma canonical_Date : CanonicalMIMEHeaderKey "Date" = "Date".
Proof. reflexivity. Qed.

(** A header map that holds a key is allocated. *)
Lemma is_Some_lookup_allocated (h : HttpHeader) (k : string) :
  is_Some (h !! k) -> exists m, h = MapHeader m.
Proof. destruct h as [|m]; [intros [v Hv]; discriminate|eauto]. Qed.

Lemma Header_Set_Ret_inv (h h' : HttpHeader) (k v : string) :
  Header_Set h k v = Ret h' ->
  exists m, h = MapHeader m /\
            h' = MapHeader (<[CanonicalMIMEHeaderKey k := [v]]> m).
Proof. destruct h as [|m]; simpl; [discriminate|]. intros [= <-]. eauto. Qed.

Lemma Header_Set_Panic_inv (h : HttpHeader) (k v msg : string) :
  Header_Set h k v = Panic msg -> h = NilHeader /\ msg = nilMapAssign.
Proof. destruct h as [|m]; simpl; [|discriminate]. now intros [= <-]. Qed.

(** Keys are canonicalised as in Go: the common spellings of a field
    name meet in one key, and a key with a space is left alone. *)
Example canonical_examples :
  CanonicalMIMEHeaderKey "content-type" = "Content-Type" /\
  CanonicalMIMEHeaderKey "X-AMZ-DATE" = "X-Amz-Date" /\
  CanonicalMIMEHeaderKey "x amz date" = "x amz date".
Proof. repeat split. Qed.

(** ** strings.Reader is a lawful seeker *)

Lemma Reader_Len_nonneg (r : Reader) : 0 <= Reader_Len r.
Proof. unfold Reader_Len. lia. Qed.

(** What [Seek] does on a reader once the absolute offset is known. *)
Lemma Reader_Seek_unfold (r : Reader) (offset whence : Z) :
  let r0 := mkReaderAt (r_s r) (r_i r) (-1) in
  let go (abs : Z) : Reader * (Z * option error) :=
    if abs <? 0
    then (r0, (0, Some "strings.Reader.Seek: negative position"))
    else (mkReaderAt (r_s r) abs (-1), (abs, None)) in
  Reader_Seek r offset whence =
  if whence =? SeekStart then go offset
  else if whence =? SeekCurrent then go (add64 (r_i r) offset)
  else if whence =? SeekEnd then go (add64 (Reader_Len r) offset)
  else (r0, (0, Some "strings.Reader.Seek: invalid whence")).
Proof. reflexivity. Qed.

Lemma Reader_Seek_wf (r : Reader) (offset whence : Z) :
  Reader_wf r -> in_int64 offset -> Reader_wf (Reader_Seek r offset whence).1.
Proof.
  intros [Hi Hl] Ho. rewrite Reader_Seek_unfold. cbv zeta.
  assert (H0 : Reader_wf (mkReaderAt (r_s r) (r_i r) (-1))) by (now split).
  assert (Hgo : forall abs, in_int64 abs ->
            Reader_wf ((if abs <? 0
                        then (mkReaderAt (r_s r) (r_i r) (-1),
                              (0, Some "strings.Reader.Seek: negative position"))
                        else (mkReaderAt (r_s r) abs (-1), (abs, @None error))).1)).
  { intros abs Ha. destruct (Z.ltb_spec abs 0); simpl; [exact H0|].
    unfold Reader_wf, in_int64 in *; simpl. unfold Reader_Len in *; simpl. lia. }
  destruct (whence =? SeekStart); [now apply Hgo|].
  destruct (whence =? SeekCurrent); [apply Hgo, wrap64_in_int64|].
  destruct (whence =? SeekEnd); [apply Hgo, wrap64_in_int64|].
  exact H0.
Qed.

Lemma Reader_Seek_ok (r : Reader) (offset whence : Z) (r' : Reader) (n : Z) :
  Reader_wf r -> in_int64 offset -> 0 <= whence <= 2 ->
  Reader_Seek r offset whence = (r', (n, None)) ->
  n = add64 (seekBase r_i Reader_Len r whence) offset /\
  r_i r' = n /\ Reader_Len r' = Reader_Len r.
Proof.
  intros Hwf Ho Hw. rewrite Reader_Seek_unfold. cbv zeta. unfold seekBase.
  assert (Hgo : forall abs,
            (if abs <? 0
             then (mkReaderAt (r_s r) (r_i r) (-1),
                   (0, Some "strings.Reader.Seek: negative position"))
             else (mkReaderAt (r_s r) abs (-1), (abs, @None error))) = (r', (n, None)) ->
            n = abs /\ r_i r' = n /\ Reader_Len r' = Reader_Len r).
  { intros abs. destruct (abs <? 0); intros E; inversion E; subst. now simpl. }
  destruct (Z.eqb_spec whence SeekStart) as [->|H0].
  - intros E. apply Hgo in E. now rewrite add64_0_l.
  - destruct (Z.eqb_spec whence SeekCurrent) as [->|H1]; [exact (Hgo _)|].
    destruct (Z.eqb_spec whence SeekEnd) as [->|H2]; [exact (Hgo _)|].
    unfold SeekStart, SeekCurrent, SeekEnd in *. lia.
Qed.

#[export, refine] Instance Reader_Lawful : LawfulSeeker Reader := {|
  position := r_i;
  extent := Reader_Len;
  wf := Reader_wf
|}.
Proof.
  - now intros r [Hi _].
  - intros r [_ Hl]. split; [apply Reader_Len_nonneg | exact Hl].
  - exact Reader_Seek_wf.
  - exact Reader_Seek_ok.
Defined.

Lemma NewReader_wf (s : string) :
  Z.of_nat (String.length s) <= int64_max -> Reader_wf (NewReader s).
Proof. intros Hs. split; [simpl; unfold int64_max; lia | exact Hs]. Qed.

(** ** The models on concrete inputs *)

Example findLen_hello :
  findLen (NewReader "hello, world") = (NewReader "hello, world", (12, None)).
Proof. reflexivity. Qed.

Example findLen_middle :
  findLen (mkReader "hello, world" 5) = (mkReader "hello, world" 5, (7, None)).
Proof. reflexivity. Qed.

Example findLen_past_end :
  findLen (mkReader "hello, world" 20) = (mkReader "hello, world" 20, (0, Some pastEnd)).
Proof. reflexivity. Qed.

Example findLen_pipe :
  findLen ThePipe = (ThePipe, (0, Some "cannot seek: seek |0: illegal seek")).
Proof. reflexivity. Qed.

Example Format_rfc_example :
  Format_TimeFormat (mkTime 784111777 0) = "Sun, 06 Nov 1994 08:49:37 GMT".
Proof. reflexivity. Qed.

Example Format_epoch :
  Format_TimeFormat (mkTime 0 0) = "Thu, 01 Jan 1970 00:00:00 GMT".
Proof. reflexivity. Qed.

Example Format_leap_day :
  Format_TimeFormat (mkTime 951782400 0) = "Tue, 29 Feb 2000 00:00:00 GMT".
Proof. reflexivity. Qed.

(** Years of more than four digits are printed in full, years before 0
    with a sign. *)
Example Format_year_10000 :
  Format_TimeFormat (mkTime 253402300799 0) = "Fri, 31 Dec 9999 23:59:59 GMT" /\
  Format_TimeFormat (mkTime 253402300800 0) = "Sat, 01 Jan 10000 00:00:00 GMT".
Proof. split; reflexivity. Qed.

Example Format_year_before_0 :
  Format_TimeFormat (mkTime (-62167219200) 0) = "Sat, 01 Jan 0000 00:00:00 GMT" /\
  Format_TimeFormat (mkTime (-62167305600) 0) = "Fri, 31 Dec -0001 00:00:00 GMT".
Proof. split; reflexivity. Qed.

(** The same instant read on a clock one hour east of UTC is printed
    with that clock's fields; [Do] formats what the clock returns as it
    is. *)
Example Format_local_clock :
  Format_TimeFormat (mkTime 784111777 3600) = "Sun, 06 Nov 1994 09:49:37 GMT" /\
  Format_TimeFormat (Time_UTC (mkTime 784111777 3600)) = "Sun, 06 Nov 1994 08:49:37 GMT".
Proof. split; reflexivity. Qed.

(** ** findLen *)

Section FindLen.

Context {S : Type} `{Seeker S}.

(** The first seek fails: [findLen] stops there. *)
Lemma findLen_seek1_fails (s s1 : S) (n : Z) (e : error) :
  Seek s 0 SeekCurrent = (s1, (n, Some e)) ->
  findLen s = (s1, (0, Some (Errorf "cannot seek: " e))).
Proof. unfold findLen, SeekCurrent. now intros ->. Qed.

(** The second seek fails: the stream is left wherever that seek left
    it. *)
Lemma findLen_seek2_fails (s s1 s2 : S) (cur n : Z) (e : error) :
  Seek s 0 SeekCurrent = (s1, (cur, None)) ->
  Seek s1 0 SeekEnd = (s2, (n, Some e)) ->
  findLen s = (s2, (0, Some (Errorf "cannot seek: " e))).
Proof. unfold findLen, SeekCurrent, SeekEnd. now intros -> ->. Qed.

(** After two successful seeks the third one is issued with the recorded
    position, and only then are the two offsets compared. *)
Lemma findLen_seeks (s s1 s2 s3 : S) (cur end_ n3 : Z) (err3 : option error) :
  Seek s 0 SeekCurrent = (s1, (cur, None)) ->
  Seek s1 0 SeekEnd = (s2, (end_, None)) ->
  Seek s2 cur SeekStart = (s3, (n3, err3)) ->
  findLen s =
  (s3, match err3 with
       | Some e => (0, Some (Errorf "cannot seek: " e))
       | None => if cur >? end_ then (0, Some pastEnd) else (sub64 end_ cur, None)
       end).
Proof.
  unfold findLen, SeekCurrent, SeekEnd, SeekStart. intros -> -> ->.
  destruct err3; [reflexivity|]. now destruct (cur >? end_).
Qed.

(** [findLen] answers an error or a length, never both. *)
Lemma findLen_error_zero (s s' : S) (n : Z) (e : error) :
  findLen s = (s', (n, Some e)) -> n = 0.
Proof.
  unfold findLen.
  destruct (Seek s 0 1) as [s1 [cur [e1|]]]; [now intros [= _ <- _]|].
  destruct (Seek s1 0 2) as [s2 [end_ [e2|]]]; [now intros [= _ <- _]|].
  destruct (Seek s2 cur 0) as [s3 [n3 [e3|]]]; [now intros [= _ <- _]|].
  destruct (cur >? end_); [now intros [= _ <- _]|discriminate].
Qed.

(** C7. On a stream whose three seeks succeed, [findLen] records the
    current position [cur], seeks to the end and reads [end_], seeks
    back to [cur], and returns [end_ - cur] (the 64-bit difference,
    which is the exact one for offsets that are not negative); when
    [cur] is past [end_] it returns an error and no length. *)
Theorem findLen_length (s s1 s2 s3 : S) (cur end_ n3 : Z) :
  Seek s 0 SeekCurrent = (s1, (cur, None)) ->
  Seek s1 0 SeekEnd = (s2, (end_, None)) ->
  Seek s2 cur SeekStart = (s3, (n3, None)) ->
  (cur <= end_ -> findLen s = (s3, (sub64 end_ cur, None))) /\
  (0 <= cur <= end_ -> in_int64 end_ -> findLen s = (s3, (end_ - cur, None))) /\
  (end_ < cur -> findLen s = (s3, (0, Some pastEnd))).
Proof.
  intros E1 E2 E3. rewrite (findLen_seeks _ _ _ _ _ _ _ _ E1 E2 E3).
  repeat split.
  - intros Hle. destruct (Z.gtb_spec cur end_); [lia|reflexivity].
  - intros Hle Hend. destruct (Z.gtb_spec cur end_); [lia|].
    now rewrite sub64_exact.
  - intros Hlt. destruct (Z.gtb_spec cur end_); [reflexivity|lia].
Qed.

Context `{!LawfulSeeker S}.

(** On a lawful stream the first seek reports the position and does not
    move. *)
Lemma Seek_current (s s1 : S) (cur : Z) :
  wf s -> Seek s 0 SeekCurrent = (s1, (cur, None)) ->
  cur = position s /\ position s1 = position s /\ extent s1 = extent s /\ wf s1.
Proof.
  intros Hwf E.
  pose proof (Seek_wf s 0 SeekCurrent Hwf in_int64_0) as Hwf1. rewrite E in Hwf1.
  destruct (Seek_ok s 0 SeekCurrent s1 cur Hwf in_int64_0
              ltac:(unfold SeekCurrent; lia) E) as (Hn & Hp & Hl).
  unfold seekBase in Hn; simpl in Hn.
  rewrite add64_0_r in Hn by (apply in_int64_nonneg, wf_position, Hwf).
  subst cur. auto.
Qed.

(** C10. On a stream whose first two seeks succeed, [findLen] leaves the
    stream in the state the restoring seek [Seek(cur, SeekStart)]
    produced, whatever the comparison of [cur] and [end_] says
    afterwards; when that seek succeeds on a lawful stream, the position
    is the original one both when a length is returned and when the
    current position was past the end. *)
Theorem findLen_restores_position (s s1 s2 : S) (cur end_ : Z) :
  wf s ->
  Seek s 0 SeekCurrent = (s1, (cur, None)) ->
  Seek s1 0 SeekEnd = (s2, (end_, None)) ->
  (findLen s).1 = (Seek s2 cur SeekStart).1 /\
  (forall s3 n3, Seek s2 cur SeekStart = (s3, (n3, None)) ->
     position (findLen s).1 = position s /\
     (cur <= end_ -> (findLen s).2 = (sub64 end_ cur, None)) /\
     (end_ < cur -> (findLen s).2 = (0, Some pastEnd))).
Proof.
  intros Hwf E1 E2. split.
  - destruct (Seek s2 cur SeekStart) as [s3 [n3 err3]] eqn:E3.
    now rewrite (findLen_seeks _ _ _ _ _ _ _ _ E1 E2 E3).
  - intros s3 n3 E3.
    destruct (Seek_current _ _ _ Hwf E1) as (-> & _ & _ & Hwf1).
    pose proof (Seek_wf s1 0 SeekEnd Hwf1 in_int64_0) as Hwf2. rewrite E2 in Hwf2.
    assert (Hc : in_int64 (position s)) by (apply in_int64_nonneg, wf_position, Hwf).
    destruct (Seek_ok s2 (position s) SeekStart s3 n3 Hwf2 Hc
                ltac:(unfold SeekStart; lia) E3) as (Hn & Hp & _).
    unfold seekBase in Hn; simpl in Hn. rewrite add64_0_l in Hn by exact Hc.
    rewrite (findLen_seeks _ _ _ _ _ _ _ _ E1 E2 E3). simpl.
    repeat split.
    + congruence.
    + intros Hc'. destruct (Z.gtb_spec (position s) end_); [lia|reflexivity].
    + intros Hc'. destruct (Z.gtb_spec (position s) end_); [reflexivity|lia].
Qed.

End FindLen.

(** ** Client.Do *)

Section DoProps.

Context {S : Type} `{Seeker S}.
Variable DefaultClient : HttpClient S.

Lemma Do_split (c : Client S) (req : Request S) :
  Do DefaultClient c req =
  if returnsEarly req
  then mkDoResult (prepared req) [] (Returned None None)
  else Do_pipeline DefaultClient c (prepared req).
Proof.
  unfold Do, returnsEarly, prepared, probed.
  destruct (ContentLength req =? 0); [|reflexivity].
  destruct (Body req) as [[|s]|]; try reflexivity.
  destruct (findLen s) as [s' [n [e|]]]; reflexivity.
Qed.

Lemma prepared_Header (req : Request S) : Header (prepared req) = Header req.
Proof. unfold prepared. now destruct (probed req). Qed.

Lemma prepared_Method (req : Request S) : Method (prepared req) = Method req.
Proof. unfold prepared. now destruct (probed req). Qed.

Lemma prepared_unprobed (req : Request S) : probed req = None -> prepared req = req.
Proof. unfold prepared. now intros ->. Qed.

Lemma returnsEarly_unprobed (req : Request S) :
  probed req = None -> returnsEarly req = false.
Proof. unfold returnsEarly. now intros ->. Qed.

(** The probe succeeds: the length is recorded, and [Do] returns a nil
    response and a nil error on the spot. *)
Lemma Do_probe_ok (c : Client S) (req : Request S) (s s' : S) (n : Z) :
  probed req = Some s -> findLen s = (s', (n, None)) ->
  Do DefaultClient c req =
  mkDoResult (set_ContentLength (set_Body req (Some (Seekable s'))) n) []
             (Returned None None).
Proof.
  intros Hp Hf. rewrite Do_split. unfold returnsEarly, prepared.
  now rewrite Hp, Hf.
Qed.

(** The probe fails: the error is dropped, the declared length stays 0,
    and [Do] goes on to sign and send. *)
Lemma Do_probe_fails (c : Client S) (req : Request S) (s s' : S) (n : Z) (e : error) :
  probed req = Some s -> findLen s = (s', (n, Some e)) ->
  Do DefaultClient c req =
  Do_pipeline DefaultClient c
    (set_ContentLength (set_Body req (Some (Seekable s'))) 0).
Proof.
  intros Hp Hf. rewrite Do_split. unfold returnsEarly, prepared.
  rewrite Hp, Hf. simpl. now rewrite (findLen_error_zero _ _ _ _ Hf).
Qed.

(** X15. Past the probe, a request without a date of either kind and
    with an allocated header map gets the [Date] header from the
    client's clock, as the single value the clock's time formats to, and
    the signer is shown the request with it. On a nil header map the
    clock is read and then [Header.Set] panics: nothing is signed. *)
Lemma Do_sets_Date (c : Client S) (req : Request S) (now : unit -> Time)
      (sign : Request S -> result (Request S * option error)) :
  returnsEarly req = false ->
  Header req !! "Date" = None -> Header req !! "X-Amz-Date" = None ->
  Client_Time c = Some now -> Client_Sign c = Some sign ->
  Time_inRange (now tt) ->
  (forall m, Header req = MapHeader m ->
     let req1 := set_Header (prepared req)
                   (MapHeader (<["Date" := [Format_TimeFormat (now tt)]]> m)) in
     Header req1 !! "Date" = Some [Format_TimeFormat (now tt)] /\
     exists rest, trace (Do DefaultClient c req)
                  = EvTime (now tt) :: EvSign req1 (sign req1) :: rest) /\
  (Header req = NilHeader ->
     outcome (Do DefaultClient c req) = Panicked nilMapAssign /\
     trace (Do DefaultClient c req) = [EvTime (now tt)]).
Proof.
  intros He Hd Hx Ht Hs _. split.
  - intros m Hm req1. split.
    + subst req1. cbn [Header set_Header]. rewrite lookup_MapHeader.
      apply lookup_insert_eq.
    + rewrite Do_split, He. unfold Do_pipeline, Header_has.
      rewrite (prepared_Header req), Hd, Hx, Ht, Hs, Hm. simpl.
      rewrite canonical_Date. fold req1.
      destruct (sign req1) as [[req' [e|]]|msg]; simpl; eauto.
      match goal with
      | |- context [HttpClient_Do ?h req'] => destruct (HttpClient_Do h req')
      end; simpl; eauto.
  - intros Hn. rewrite Do_split, He. unfold Do_pipeline, Header_has.
    rewrite (prepared_Header req), Hd, Hx, Ht, Hn. simpl. now split.
Qed.

(** X14. A request that carries a date of either kind: the clock is not read,
    and the signer is shown the header as it came. *)
Lemma Do_keeps_date (c : Client S) (req : Request S) :
  is_Some (Header req !! "Date") \/ is_Some (Header req !! "X-Amz-Date") ->
  (forall t, ~ In (EvTime t) (trace (Do DefaultClient c req))) /\
  (forall r res, In (EvSign r res) (trace (Do DefaultClient c req)) ->
                 Header r = Header req).
Proof.
  intros Hh. rewrite Do_split.
  destruct (returnsEarly req);
    [split; [intros t Hf|intros r res Hf]; destruct Hf|].
  rewrite <- (prepared_Header req) in *.
  unfold Do_pipeline, Header_has.
  destruct (Header (prepared req) !! "Date") as [d|] eqn:Hd.
  - split; [intros t|intros r res]; repeat case_match; simpl;
      intros Hin; simplify_eq; in_cases Hin; reflexivity.
  - destruct (Header (prepared req) !! "X-Amz-Date") as [x|] eqn:Hx.
    + split; [intros t|intros r res]; repeat case_match; simpl;
        intros Hin; simplify_eq; in_cases Hin; reflexivity.
    + destruct Hh as [[v Hv]|[v Hv]]; discriminate.
Qed.

End DoProps.

Section DoSign.

Context {S : Type} `{Seeker S}.
Variable DefaultClient : HttpClient S.

(** Every signer event of a trace is a call of the client's [Sign]
    field, with the answer that field gave. *)
Lemma Do_EvSign_inv (c : Client S) (req r1 : Request S)
      (res : result (Request S * option error)) :
  In (EvSign r1 res) (trace (Do DefaultClient c req)) ->
  exists sign, Client_Sign c = Some sign /\ sign r1 = res.
Proof.
  rewrite Do_split. destruct (returnsEarly req); [intros []|].
  unfold Do_pipeline.
  repeat case_match; simpl; intros Hin; simplify_eq; in_cases Hin; eauto.
Qed.

(** The request the signer is shown has the method [Do] was given. *)
Lemma Do_EvSign_Method (c : Client S) (req r : Request S)
      (res : result (Request S * option error)) :
  In (EvSign r res) (trace (Do DefaultClient c req)) -> Method r = Method req.
Proof.
  rewrite Do_split. destruct (returnsEarly req); [intros []|].
  rewrite <- (prepared_Method req). unfold Do_pipeline.
  repeat case_match; simpl; intros Hin; simplify_eq; in_cases Hin; reflexivity.
Qed.

(** Past the probe, [Do] calls the client's [Sign] on the request that
    lines 60 to 64 produce; when that call returns a non-nil error [e],
    [Do] returns a nil response and the error ["sign request: " ++ e],
    leaves the request as the signer left it, and does not call the
    transport. *)
Lemma Do_sign_fails (c : Client S) (req r1 r2 : Request S)
      (sign : Request S -> result (Request S * option error)) (e : error) :
  signerSees c req r1 -> Client_Sign c = Some sign ->
  sign r1 = Ret (r2, Some e) ->
  outcome (Do DefaultClient c req) = Returned None (Some ("sign request: " +:+ e)) /\
  final (Do DefaultClient c req) = r2 /\
  In (EvSign r1 (Ret (r2, Some e))) (trace (Do DefaultClient c req)) /\
  neverSent (trace (Do DefaultClient c req)).
Proof.
  intros Hsees Hs Hr. rewrite Do_split.
  pose proof (prepared_Header req) as Hh.
  destruct Hsees as [He Hd|now m He Hd Hx Ht Hm]; rewrite He;
    unfold Do_pipeline, Header_has, neverSent, Errorf; rewrite Hh.
  - assert (E : (if match Header req !! "Date" with Some _ => true | None => false end
                 then ([], Ret (prepared req))
                 else if match Header req !! "X-Amz-Date" with
                         | Some _ => true | None => false end
                      then ([], Ret (prepared req))
                      else match Client_Time c with
                           | Some now =>
                               ([EvTime (now tt)],
                                match Header_Set (Header req) "Date"
                                        (Format_TimeFormat (now tt)) with
                                | Ret h => Ret (set_Header (prepared req) h)
                                | Panic msg => Panic msg
                                end)
                           | None => ([], Panic nilDeref)
                           end) = (@nil (Event S), Ret (prepared req))).
    { destruct Hd as [[v ->]|[v Hv]]; [reflexivity|].
      rewrite Hv. now destruct (Header req !! "Date"). }
    rewrite E, Hs, Hr. simpl. repeat split; auto.
    intros r Hin; in_cases Hin.
  - rewrite Hd, Hx, Ht, Hm. simpl. rewrite canonical_Date, Hs, Hr. simpl.
    repeat split; auto. intros r Hin; in_cases Hin.
Qed.

(** C6. [Do] calls the [Time] and [Sign] fields as they are: with a nil
    [Time] the call [c.Time()] panics before the signer is reached, with
    a nil [Sign] the call [c.Sign(req)] panics before the transport is
    reached (unless, with a clock and a nil header map, [Header.Set] has
    panicked before it), and the zero-value client panics on one or the
    other for every request that gets past the length probe; only a nil
    [Client] field is replaced, by [http.DefaultClient]. *)
Theorem Do_nil_fields (c : Client S) (req : Request S) :
  returnsEarly req = false ->
  (Client_Time c = None ->
   Header req !! "Date" = None -> Header req !! "X-Amz-Date" = None ->
   outcome (Do DefaultClient c req) = Panicked nilDeref /\
   trace (Do DefaultClient c req) = []) /\
  (Client_Sign c = None ->
   (Header req <> NilHeader \/ Client_Time c = None ->
    outcome (Do DefaultClient c req) = Panicked nilDeref) /\
   (Header req = NilHeader -> is_Some (Client_Time c) ->
    outcome (Do DefaultClient c req) = Panicked nilMapAssign) /\
   neverSigned (trace (Do DefaultClient c req)) /\
   neverSent (trace (Do DefaultClient c req))) /\
  (outcome (Do DefaultClient zeroClient req) = Panicked nilDeref /\
   trace (Do DefaultClient zeroClient req) = []) /\
  (forall sign r1 r2,
     Client_Client c = None -> Client_Sign c = Some sign ->
     In (EvSign r1 (Ret (r2, None))) (trace (Do DefaultClient c req)) ->
     outcome (Do DefaultClient c req)
     = Returned (HttpClient_Do DefaultClient r2).1 (HttpClient_Do DefaultClient r2).2 /\
     In (EvSend r2) (trace (Do DefaultClient c req))).
Proof.
  intros Hearly. rewrite !Do_split, Hearly.
  pose proof (prepared_Header req) as Hh.
  split; [|split; [|split]].
  - intros Ht Hd Hx. unfold Do_pipeline, Header_has.
    now rewrite Hh, Hd, Hx, Ht.
  - intros Hs. unfold Do_pipeline, neverSigned, neverSent, Header_has.
    rewrite Hs, Hh.
    repeat case_match; simpl; simplify_eq;
      repeat match goal with
             | E : Header_Set _ _ _ = Panic _ |- _ =>
                 apply Header_Set_Panic_inv in E; destruct E as [E ->]
             | E : Header_Set _ _ _ = Ret _ |- _ =>
                 apply Header_Set_Ret_inv in E; destruct E as (? & E & ->)
             end;
      (split; [intros [Hn|Ht]; [try reflexivity; congruence|congruence]|]);
      (split; [intros Hn [t' Ht];
               first [reflexivity
                     |rewrite Hn in *; simplify_eq; discriminate
                     |congruence]|]);
      split; intros; intros Hr; in_cases Hr.
  - unfold Do_pipeline, zeroClient. simpl.
    repeat case_match; simplify_eq; now simpl.
  - intros sign r1 r2 Hc Hs. unfold Do_pipeline. rewrite Hc, Hs.
    repeat case_match; simpl; intros Hin; simplify_eq; in_cases Hin;
      match goal with
      | E : HttpClient_Do _ _ = _ |- _ => rewrite E
      end; simpl; auto.
Qed.

End DoSign.

(** ** Signer.Sign *)

Section SignerProps.

Context {S : Type}.
Variable Service : Type.
Variable Service_Sign : option Service -> Request S -> Keys -> result (Request S).

Lemma resolvesKeys_det (g : Globals Service) (s : Signer Service) (k k' : Keys) :
  resolvesKeys g s k -> resolvesKeys g s k' -> k = k'.
Proof. intros [] []; congruence. Qed.

Lemma resolvesService_det (g : Globals Service) (s : Signer Service)
      (sv sv' : option Service) :
  resolvesService g s sv -> resolvesService g s sv' -> sv = sv'.
Proof. intros [] []; congruence. Qed.

Lemma Signer_Sign_resolved (g : Globals Service) (s : Signer Service)
      (req : Request S) (k : Keys) (sv : option Service) :
  resolvesKeys g s k -> resolvesService g s sv ->
  Signer_Sign Service_Sign g s req = returnsNil (Service_Sign sv req k).
Proof.
  unfold Signer_Sign, returnsNil.
  intros [k1 Hk|k1 Hk Hd] [sv1 Hs|Hs]; rewrite Hk, Hs, ?Hd; reflexivity.
Qed.

(** C9. [Signer.Sign] signs with the signer's own [Keys] when the field
    is not nil and with [DefaultKeys] otherwise, on the signer's own
    [Service] when that field is not nil and on [DefaultService]
    otherwise: its result is that of [Service.Sign] called with exactly
    this pair, and a signer's own fields are used whatever the defaults
    are. *)
Theorem Signer_Sign_resolves (g : Globals Service) (s : Signer Service)
        (req : Request S) (k : Keys) (sv : option Service) :
  resolvesKeys g s k -> resolvesService g s sv ->
  Signer_Sign Service_Sign g s req = returnsNil (Service_Sign sv req k) /\
  (forall g', Signer_Keys s = Some k -> Signer_Service s = sv -> is_Some sv ->
              Signer_Sign Service_Sign g' s req = Signer_Sign Service_Sign g s req).
Proof.
  intros Hk Hs. split; [now apply Signer_Sign_resolved|].
  intros g' Hk' Hs' [x ->].
  rewrite (Signer_Sign_resolved g s req k (Some x) Hk Hs).
  apply Signer_Sign_resolved; [now apply keys_explicit|now apply service_explicit].
Qed.

(** C2, as the code has it. [Signer.Sign] has no check for missing
    credentials and never returns a non-nil error: whenever a credential
    pair resolves, be it an empty one, and [Service.Sign] returns,
    [Signer.Sign] returns nil. *)
Theorem Signer_Sign_never_errors (g : Globals Service) (s : Signer Service)
        (req : Request S) :
  (forall r e, Signer_Sign Service_Sign g s req <> Ret (r, Some e)) /\
  (forall k sv r, resolvesKeys g s k -> resolvesService g s sv ->
                  Service_Sign sv req k = Ret r ->
                  Signer_Sign Service_Sign g s req = Ret (r, None)).
Proof.
  split.
  - intros r e. unfold Signer_Sign.
    repeat case_match; congruence.
  - intros k sv r Hk Hs Hr.
    rewrite (Signer_Sign_resolved g s req k sv Hk Hs), Hr. reflexivity.
Qed.

(** With no credentials at all the dereference [*keys] panics; no error
    value is returned here either. *)
Lemma Signer_Sign_no_keys (g : Globals Service) (s : Signer Service) (req : Request S) :
  Signer_Keys s = None -> DefaultKeys g = None ->
  Signer_Sign Service_Sign g s req = Panic nilDeref.
Proof. unfold Signer_Sign. now intros -> ->. Qed.

End SignerProps.

(** ** Get and Put *)

Section PutProps.

Context {S : Type} `{Seeker S}.
Variable url_Parse : string -> option error.
Variable DefaultClient : HttpClient S.

Lemma NewRequest_Method (method url : string) (body : option (IoReader S))
      (req : Request S) :
  NewRequest url_Parse method url body = inl req -> Method req = method.
Proof.
  unfold NewRequest. destruct (url_Parse url); [discriminate|].
  now intros [= <-].
Qed.

(** C5. For every URL and body, the request [Put] builds and hands to
    [Do] has the method ["GET"] and not ["PUT"]; the signer is shown a
    ["GET"] request; and [Put] with a nil body is [Get]. *)
Theorem Put_uses_GET (c : Client S) (url : string) (body : option (IoReader S)) :
  (forall req, NewRequest url_Parse "GET" url body = inl req ->
     Method req = "GET" /\ Method req <> "PUT" /\
     Put url_Parse DefaultClient c url body
     = (outcome (Do DefaultClient c req), trace (Do DefaultClient c req))) /\
  (forall r res, In (EvSign r res) (Put url_Parse DefaultClient c url body).2 ->
     Method r = "GET" /\ Method r <> "PUT") /\
  Get url_Parse DefaultClient c url = Put url_Parse DefaultClient c url None.
Proof.
  split; [|split].
  - intros req Hreq. pose proof (NewRequest_Method _ _ _ _ Hreq) as Hm.
    rewrite Hm. repeat split; [discriminate|].
    unfold Put. now rewrite Hreq.
  - intros r res. unfold Put.
    destruct (NewRequest url_Parse "GET" url body) as [req|err] eqn:Hreq;
      simpl; [|intros []].
    intros Hin. apply Do_EvSign_Method in Hin.
    rewrite (NewRequest_Method _ _ _ _ Hreq) in Hin. rewrite Hin.
    split; [reflexivity|discriminate].
  - reflexivity.
Qed.

End PutProps.

(** ** The length probe in Client.Do *)

Section ProbeLawful.

Context {S : Type} `{LawfulSeeker S}.
Variable DefaultClient : HttpClient S.

(** On every lawful stream at offset 0 whose seeks succeed, the probe
    records the extent as the declared length and puts the stream back
    at offset 0, and then [Do] returns a nil response and a nil error:
    neither the clock, nor the signer, nor the transport is called. *)
Lemma Do_probe_lawful (c : Client S) (req : Request S) (s s1 s2 s3 : S)
      (cur end_ n3 : Z) :
  probed req = Some s -> wf s -> position s = 0 ->
  Seek s 0 SeekCurrent = (s1, (cur, None)) ->
  Seek s1 0 SeekEnd = (s2, (end_, None)) ->
  Seek s2 cur SeekStart = (s3, (n3, None)) ->
  let r := Do DefaultClient c req in
  ContentLength (final r) = extent s /\
  Body (final r) = Some (Seekable s3) /\ position s3 = 0 /\
  outcome r = Returned None None /\ trace r = [].
Proof.
  intros Hp Hwf Hpos E1 E2 E3 r.
  destruct (Seek_current _ _ _ Hwf E1) as (Hcur & _ & Hext1 & Hwf1).
  rewrite Hpos in Hcur. subst cur.
  pose proof (Seek_wf s1 0 SeekEnd Hwf1 in_int64_0) as Hwf2. rewrite E2 in Hwf2.
  destruct (Seek_ok s1 0 SeekEnd s2 end_ Hwf1 in_int64_0
              ltac:(unfold SeekEnd; lia) E2) as (Hend & _ & _).
  unfold seekBase in Hend; simpl in Hend.
  pose proof (wf_extent s1 Hwf1) as Hr.
  rewrite add64_0_r in Hend by (now apply in_int64_nonneg).
  destruct (Seek_ok s2 0 SeekStart s3 n3 Hwf2 in_int64_0
              ltac:(unfold SeekStart; lia) E3) as (Hn3 & Hp3 & _).
  unfold seekBase in Hn3; simpl in Hn3.
  rewrite add64_0_r in Hn3 by exact in_int64_0.
  assert (Hf : findLen s = (s3, (extent s, None))).
  { rewrite (findLen_seeks _ _ _ _ _ _ _ _ E1 E2 E3).
    destruct (Z.gtb_spec 0 end_); [lia|].
    rewrite sub64_exact; [|apply in_int64_nonneg; lia|lia].
    rewrite Z.sub_0_r. congruence. }
  subst r. rewrite (Do_probe_ok DefaultClient c req s s3 (extent s) Hp Hf).
  simpl. repeat split. congruence.
Qed.

End ProbeLawful.

(** C1, where the code departs from it. The request [helloReq] declares
    no length and carries a seekable body of twelve bytes at offset 0,
    and every seek succeeds. [Do] records the length 12 and restores the
    offset 0, as claimed, but then returns a nil response and a nil
    error at once: the trace is empty, so no time was read, nothing was
    signed and nothing was sent. *)
Theorem Do_seekable_body_returns_early :
  let r := Do transport500 testClient helloReq in
  probed helloReq = Some (NewReader "hello, world") /\
  findLen (NewReader "hello, world") = (NewReader "hello, world", (12, None)) /\
  ContentLength (final r) = 12 /\
  Body (final r) = Some (Seekable (NewReader "hello, world")) /\
  outcome r = Returned None None /\
  trace r = [].
Proof. vm_compute. repeat split. Qed.

(** C3, where the code departs from it. On [pastEndReq] the probe finds
    the current position past the end, and on [pipeReq] the first seek
    fails; in both cases [Do] drops the error, signs the request with a
    declared length of 0 and sends it: the transport's answer comes back
    with a nil error. *)
Theorem Do_failed_probe_is_sent :
  let r := Do transport500 testClient pastEndReq in
  let p := Do transport500 testClient pipeReq in
  ((findLen (mkReader "hello, world" 20)).2 = (0, Some pastEnd) /\
   outcome r = Returned (Some (mkResponse 200)) None /\
   In (EvSend (final r)) (trace r) /\
   ContentLength (final r) = 0) /\
  ((findLen ThePipe).2 = (0, Some "cannot seek: seek |0: illegal seek") /\
   outcome p = Returned (Some (mkResponse 200)) None /\
   In (EvSend (final p)) (trace p) /\
   ContentLength (final p) = 0).
Proof.
  split.
  - split; [reflexivity|]. split; [reflexivity|]. split; [|reflexivity].
    right. right. left. reflexivity.
  - split; [reflexivity|]. split; [reflexivity|]. split; [|reflexivity].
    right. right. left. reflexivity.
Qed.

(** C4, where the code departs from it. [helloReq] has neither a [Date]
    nor an [X-Amz-Date] header and the client's clock is fixed, yet the
    request [Do] leaves behind has no [Date] header: [Do] returned from
    the length probe before it looked at the header. *)
Theorem Do_early_return_sets_no_Date :
  let r := Do transport500 testClient helloReq in
  Header helloReq !! "Date" = None /\
  Header helloReq !! "X-Amz-Date" = None /\
  Client_Time (@testClient Reader) = Some fixedClock /\
  Header (final r) !! "Date" = None /\
  outcome r = Returned None None.
Proof. vm_compute. repeat split. Qed.

(** C8, where the code departs from it. The signer of [refusingClient]
    returns a non-nil error on every request, yet on [helloReq] [Do]
    returns a nil response and a nil error, not the wrapped error: it
    returned from the length probe before it called the signer. *)
Theorem Do_early_return_skips_Sign :
  let r := Do transport500 refusingClient helloReq in
  Client_Sign (@refusingClient Reader) = Some refusingSign /\
  (forall q : Request Reader, refusingSign q = Ret (q, Some "no signature today")) /\
  outcome r = Returned None None /\
  outcome r <> Returned None (Some ("sign request: " +:+ "no signature today")) /\
  trace r = [].
Proof.
  cbv zeta. split; [reflexivity|]. split; [intros q; reflexivity|].
  split; [reflexivity|]. split; [discriminate|reflexivity].
Qed.

(** ** Instances *)

(** The reader of the examples, five bytes in. *)
Lemma findLen_length_witness :
  let s := mkReader "hello, world" 5 in
  let e := mkReader "hello, world" 12 in
  (Seek s 0 SeekCurrent = (s, (5, None)) /\
   Seek s 0 SeekEnd = (e, (12, None)) /\
   Seek e 5 SeekStart = (s, (5, None))) /\
  (5 <= 12 -> findLen s = (s, (sub64 12 5, None))) /\
  (0 <= 5 <= 12 -> in_int64 12 -> findLen s = (s, (12 - 5, None))) /\
  (12 < 5 -> findLen s = (s, (0, Some pastEnd))).
Proof.
  split; [repeat split|].
  apply (findLen_length (mkReader "hello, world" 5) (mkReader "hello, world" 5)
           (mkReader "hello, world" 12) (mkReader "hello, world" 5) 5 12 5);
    reflexivity.
Defined.

(** The same reader moved past its end: the position is 20 before and
    after, and no length comes back. *)
Lemma findLen_restores_position_witness :
  let s := mkReader "hello, world" 20 in
  let e := mkReader "hello, world" 12 in
  (findLen s).1 = (Seek e 20 SeekStart).1 /\
  (forall s3 n3, Seek e 20 SeekStart = (s3, (n3, None)) ->
     position (findLen s).1 = position s /\
     (20 <= 12 -> (findLen s).2 = (sub64 12 20, None)) /\
     (12 < 20 -> (findLen s).2 = (0, Some pastEnd))).
Proof.
  apply (findLen_restores_position (mkReader "hello, world" 20)
           (mkReader "hello, world" 20) (mkReader "hello, world" 12) 20 12).
  - unfold wf, Reader_Lawful, Reader_wf, Reader_Len, int64_max; simpl. lia.
  - reflexivity.
  - reflexivity.
Defined.

(** The zero-value client of the package's examples panics on their
    request; a client with only the transport left out sends through the
    default one. *)
Lemma Do_nil_fields_witness :
  returnsEarly exampleReq = false /\
  (outcome (Do transport500 zeroClient exampleReq) = Panicked nilDeref /\
   trace (Do transport500 zeroClient exampleReq) = []) /\
  (outcome (Do transport500 zeroClient exampleReq) = Panicked nilDeref /\
   neverSigned (trace (Do transport500 zeroClient exampleReq)) /\
   neverSent (trace (Do transport500 zeroClient exampleReq))) /\
  outcome (Do transport500 noTransportClient exampleReq)
  = Returned (Some (mkResponse 500)) None.
Proof.
  split; [reflexivity|].
  destruct (Do_nil_fields transport500 zeroClient exampleReq eq_refl)
    as (Htime & Hsign & _ & _).
  destruct (Do_nil_fields transport500 noTransportClient exampleReq eq_refl)
    as (_ & _ & _ & Hsend).
  split; [exact (Htime eq_refl eq_refl eq_refl)|].
  destruct (Hsign eq_refl) as (Hderef & _ & Hnsign & Hnsent).
  split; [exact (conj (Hderef (or_intror eq_refl)) (conj Hnsign Hnsent))|].
  refine (proj1 (Hsend _ _ (final (Do transport500 noTransportClient exampleReq))
                   eq_refl eq_refl _)).
  right. left. reflexivity.
Defined.

Lemma Signer_Sign_resolves_witness :
  resolvesKeys testGlobals overridingSigner otherKeys /\
  resolvesService testGlobals overridingSigner (Some theService) /\
  Signer_Sign testSign testGlobals overridingSigner exampleReq
  = returnsNil (testSign (Some theService) exampleReq otherKeys).
Proof.
  assert (Hk : resolvesKeys testGlobals overridingSigner otherKeys)
    by (apply keys_explicit; reflexivity).
  assert (Hs : resolvesService testGlobals overridingSigner (Some theService))
    by (exact (service_default testGlobals overridingSigner eq_refl)).
  split; [exact Hk|]. split; [exact Hs|].
  exact (proj1 (Signer_Sign_resolves TestService testSign testGlobals overridingSigner
                  exampleReq _ _ Hk Hs)).
Defined.

Lemma Signer_Sign_never_errors_witness :
  resolvesKeys emptyGlobals DefaultSigner emptyKeys /\
  resolvesService emptyGlobals DefaultSigner (Some theService) /\
  exists r, testSign (Some theService) exampleReq emptyKeys = Ret r /\
            Signer_Sign testSign emptyGlobals DefaultSigner exampleReq = Ret (r, None).
Proof.
  assert (Hk : resolvesKeys emptyGlobals DefaultSigner emptyKeys)
    by (apply keys_default; reflexivity).
  assert (Hs : resolvesService emptyGlobals DefaultSigner (Some theService))
    by (exact (service_default emptyGlobals DefaultSigner eq_refl)).
  split; [exact Hk|]. split; [exact Hs|].
  eexists. split; [reflexivity|].
  exact (proj2 (Signer_Sign_never_errors TestService testSign emptyGlobals DefaultSigner
                  exampleReq) _ _ _ Hk Hs eq_refl).
Defined.

(** C2 fails on the code. With an empty credential pair as the default,
    [Signer.Sign] returns a nil error and the request carries an
    [Authorization] header; with no credentials configured at all it
    panics on the nil dereference. In neither case is an error
    returned. *)
Lemma Signer_Sign_no_MissingCredentials :
  (exists r, Signer_Sign testSign emptyGlobals DefaultSigner exampleReq = Ret (r, None) /\
             Header r !! "Authorization" = Some ["AWS :c2lnbmF0dXJl"]) /\
  Signer_Sign testSign noKeysGlobals DefaultSigner exampleReq = Panic nilDeref /\
  ~ (exists r e, Signer_Sign testSign emptyGlobals DefaultSigner exampleReq
                 = Ret (r, Some e)) /\
  ~ (exists r e, Signer_Sign testSign noKeysGlobals DefaultSigner exampleReq
                 = Ret (r, Some e)).
Proof.
  split; [eexists; split; reflexivity|].
  split; [reflexivity|].
  split; intros (r & e & E); vm_compute in E; discriminate E.
Qed.

Lemma Put_uses_GET_witness :
  exists req,
    NewRequest (fun _ => None) "GET" testURL (Some helloFile) = inl req /\
    Method req = "GET" /\ Method req <> "PUT" /\
    Put (fun _ => None) transport500 testClient testURL (Some helloFile)
    = (outcome (Do transport500 testClient req), trace (Do transport500 testClient req)).
Proof.
  eexists. split; [reflexivity|].
  exact (proj1 (Put_uses_GET (fun _ => None) transport500 testClient testURL
                  (Some helloFile)) _ eq_refl).
Defined.

(** ** The package's examples, run *)

(** A fully configured client on the request of the package's example:
    the request is dated, signed and sent. *)
Example Do_example_sent :
  let r := Do transport500 testClient exampleReq in
  outcome r = Returned (Some (mkResponse 200)) None /\
  Header (final r) !! "Date" = Some ["Sun, 06 Nov 1994 08:49:37 GMT"] /\
  Header (final r) !! "Authorization" = Some ["AWS AK:c2lnbmF0dXJl"] /\
  ContentLength (final r) = 12.
Proof. vm_compute. repeat split. Qed.

Example Do_amzDate_keeps_header :
  let r := Do transport500 testClient amzDateReq in
  outcome r = Returned (Some (mkResponse 200)) None /\
  Header (final r) !! "Date" = None.
Proof. vm_compute. repeat split. Qed.

(** [Put] of an open file through a fully configured client: nothing is
    sent, and both the response and the error are nil. *)
Example Put_file_returns_nothing :
  Put (fun _ => None) transport500 testClient testURL (Some helloFile)
  = (Returned None None, []).
Proof. reflexivity. Qed.

(** * Part III: further properties of the same code *)

(** ** findLen: when it fails and what it leaves behind *)

Section FindLenMore.

Context {S : Type} `{Seeker S}.

(** A length comes back only after three successful seeks. *)
Lemma findLen_ok_inv (s s' : S) (n : Z) :
  findLen s = (s', (n, None)) ->
  exists s1 s2 cur end_ n3,
    Seek s 0 SeekCurrent = (s1, (cur, None)) /\
    Seek s1 0 SeekEnd = (s2, (end_, None)) /\
    Seek s2 cur SeekStart = (s', (n3, None)) /\
    cur <= end_ /\ n = sub64 end_ cur.
Proof.
  unfold findLen, SeekCurrent, SeekEnd, SeekStart.
  destruct (Seek s 0 1) as [s1 [cur [e1|]]] eqn:E1; [discriminate|].
  destruct (Seek s1 0 2) as [s2 [end_ [e2|]]] eqn:E2; [discriminate|].
  destruct (Seek s2 cur 0) as [s3 [n3 [e3|]]] eqn:E3; [discriminate|].
  destruct (Z.gtb_spec cur end_); [discriminate|].
  intros [= <- <-]. exists s1, s2, cur, end_, n3. auto.
Qed.

(** X1. [findLen] returns an error in exactly four situations: one of the
    three seeks fails, and the error is that seek's, prefixed with
    ["cannot seek: "], the length is 0 and the stream is left where the
    failing seek left it (after a failed seek to the end no seek back is
    attempted); or all three succeed and the position was past the
    end. *)
Theorem findLen_error_iff (s s' : S) (n : Z) (e' : error) :
  findLen s = (s', (n, Some e')) <->
  n = 0 /\
  ((exists n1 e, Seek s 0 SeekCurrent = (s', (n1, Some e)) /\
                 e' = "cannot seek: " +:+ e) \/
   (exists s1 cur n2 e,
       Seek s 0 SeekCurrent = (s1, (cur, None)) /\
       Seek s1 0 SeekEnd = (s', (n2, Some e)) /\ e' = "cannot seek: " +:+ e) \/
   (exists s1 s2 cur end_ n3 e,
       Seek s 0 SeekCurrent = (s1, (cur, None)) /\
       Seek s1 0 SeekEnd = (s2, (end_, None)) /\
       Seek s2 cur SeekStart = (s', (n3, Some e)) /\ e' = "cannot seek: " +:+ e) \/
   (exists s1 s2 cur end_ n3,
       Seek s 0 SeekCurrent = (s1, (cur, None)) /\
       Seek s1 0 SeekEnd = (s2, (end_, None)) /\
       Seek s2 cur SeekStart = (s', (n3, None)) /\
       end_ < cur /\ e' = pastEnd)).
Proof.
  split.
  - intros Hf. split; [exact (findLen_error_zero _ _ _ _ Hf)|].
    revert Hf. unfold findLen, SeekCurrent, SeekEnd, SeekStart, Errorf.
    destruct (Seek s 0 1) as [s1 [cur [e1|]]] eqn:E1.
    { intros [= <- _ <-]. left. eauto. }
    destruct (Seek s1 0 2) as [s2 [end_ [e2|]]] eqn:E2.
    { intros [= <- _ <-]. right. left. exists s1, cur, end_, e2. auto. }
    destruct (Seek s2 cur 0) as [s3 [n3 [e3|]]] eqn:E3.
    { intros [= <- _ <-]. right. right. left.
      exists s1, s2, cur, end_, n3, e3. auto. }
    destruct (Z.gtb_spec cur end_); [|discriminate].
    intros [= <- _ <-]. right. right. right.
    exists s1, s2, cur, end_, n3. auto.
  - intros [-> Hc].
    destruct Hc as [(n1 & e & E1 & ->)
                   |[(s1 & cur & n2 & e & E1 & E2 & ->)
                    |[(s1 & s2 & cur & end_ & n3 & e & E1 & E2 & E3 & ->)
                     |(s1 & s2 & cur & end_ & n3 & E1 & E2 & E3 & Hlt & ->)]]].
    + exact (findLen_seek1_fails _ _ _ _ E1).
    + exact (findLen_seek2_fails _ _ _ _ _ _ E1 E2).
    + now rewrite (findLen_seeks _ _ _ _ _ _ _ _ E1 E2 E3).
    + rewrite (findLen_seeks _ _ _ _ _ _ _ _ E1 E2 E3).
      destruct (Z.gtb_spec cur end_); [reflexivity|lia].
Qed.

Context `{!LawfulSeeker S}.

(** X2. On a stream that keeps the contract of [io.Seeker], a length that
    [findLen] returns is the number of bytes between the position and
    the end; it is not negative, and the stream has the position and
    the extent it had before. *)
Theorem findLen_lawful (s s' : S) (n : Z) :
  wf s -> findLen s = (s', (n, None)) ->
  n = extent s - position s /\ 0 <= n <= int64_max /\
  position s' = position s /\ extent s' = extent s /\ wf s'.
Proof.
  intros Hwf Hf.
  destruct (findLen_ok_inv _ _ _ Hf)
    as (s1 & s2 & cur & end_ & n3 & E1 & E2 & E3 & Hle & ->).
  destruct (Seek_current _ _ _ Hwf E1) as (-> & Hp1 & Hx1 & Hwf1).
  pose proof (Seek_wf s1 0 SeekEnd Hwf1 in_int64_0) as Hwf2. rewrite E2 in Hwf2.
  simpl in Hwf2.
  destruct (Seek_ok s1 0 SeekEnd s2 end_ Hwf1 in_int64_0
              ltac:(unfold SeekEnd; lia) E2) as (Hend & _ & Hx2).
  unfold seekBase in Hend; simpl in Hend.
  pose proof (wf_extent s1 Hwf1) as Hr1.
  rewrite add64_0_r in Hend by (now apply in_int64_nonneg).
  pose proof (wf_position s Hwf) as Hrp.
  assert (Hc : in_int64 (position s)) by (now apply in_int64_nonneg).
  pose proof (Seek_wf s2 (position s) SeekStart Hwf2 Hc) as Hwf3.
  rewrite E3 in Hwf3. simpl in Hwf3.
  destruct (Seek_ok s2 (position s) SeekStart s' n3 Hwf2 Hc
              ltac:(unfold SeekStart; lia) E3) as (Hn3 & Hp3 & Hx3).
  unfold seekBase in Hn3; simpl in Hn3. rewrite add64_0_l in Hn3 by exact Hc.
  subst end_ n3.
  rewrite sub64_exact; [|apply in_int64_nonneg; lia|lia].
  repeat split; try lia; try congruence.
Qed.

End FindLenMore.

(** X3. On a [strings.Reader], [findLen] never fails on a seek and
    leaves the string and the reading index as they were; the index of
    the previous rune is reset to -1, as every [Seek] does. It returns
    the number of unread bytes, or the past-end error when the index is
    beyond the string. *)
Theorem findLen_Reader (r : Reader) :
  Reader_wf r ->
  findLen r =
  (mkReaderAt (r_s r) (r_i r) (-1),
   if r_i r >? Reader_Len r then (0, Some pastEnd)
   else (Reader_Len r - r_i r, None)).
Proof.
  destruct r as [str i p]. intros [Hi Hl]. simpl in Hi.
  unfold Reader_Len in *; simpl in Hl.
  set (len := Z.of_nat (String.length str)) in *.
  assert (Hlen : 0 <= len) by (subst len; lia).
  assert (E1 : Seek (mkReaderAt str i p) 0 SeekCurrent
               = (mkReaderAt str i (-1), (i, None))).
  { unfold Seek, Reader_Seeker. rewrite Reader_Seek_unfold. simpl.
    rewrite add64_0_r by (now apply in_int64_nonneg).
    destruct (Z.ltb_spec i 0); [lia|reflexivity]. }
  assert (E2 : Seek (mkReaderAt str i (-1)) 0 SeekEnd
               = (mkReaderAt str len (-1), (len, None))).
  { unfold Seek, Reader_Seeker. rewrite Reader_Seek_unfold.
    unfold Reader_Len; simpl. fold len.
    rewrite add64_0_r by (apply in_int64_nonneg; lia).
    destruct (Z.ltb_spec len 0); [lia|reflexivity]. }
  assert (E3 : Seek (mkReaderAt str len (-1)) i SeekStart
               = (mkReaderAt str i (-1), (i, None))).
  { unfold Seek, Reader_Seeker. rewrite Reader_Seek_unfold. simpl.
    destruct (Z.ltb_spec i 0); [lia|reflexivity]. }
  rewrite (findLen_seeks _ _ _ _ _ _ _ _ E1 E2 E3). simpl. fold len.
  destruct (Z.gtb_spec i len); [reflexivity|].
  rewrite sub64_exact; [reflexivity|apply in_int64_nonneg; lia|lia].
Qed.

(** A reader on which a rune was read last comes back from [findLen]
    with that mark gone. *)
Example findLen_forgets_rune :
  findLen (mkReaderAt "hello, world" 1 0) = (mkReaderAt "hello, world" 1 (-1), (11, None)).
Proof. reflexivity. Qed.

(** ** Client.Do: what the signer and the transport get to see *)

Section DoMore.

Context {S : Type} `{Seeker S}.
Variable DefaultClient : HttpClient S.

Lemma prepared_URL (req : Request S) : URL (prepared req) = URL req.
Proof. unfold prepared. now destruct (probed req). Qed.


(** X5. Before it signs, [Do] touches nothing of the request but the
    declared length, the body and the [Date] header: the signer is
    shown the caller's method, URL and every other header field. *)
Theorem Do_signer_sees_frame (c : Client S) (req r : Request S)
        (res : result (Request S * option error)) :
  In (EvSign r res) (trace (Do DefaultClient c req)) ->
  Method r = Method req /\ URL r = URL req /\
  (forall k, k <> "Date" -> Header r !! k = Header req !! k).
Proof.
  rewrite Do_split. destruct (returnsEarly req); [intros []|].
  rewrite <- (prepared_Method req), <- (prepared_URL req), <- (prepared_Header req).
  unfold Do_pipeline.
  repeat case_match; simpl; intros Hin; simplify_eq; in_cases Hin;
    repeat match goal with
           | E : Header_Set _ _ _ = Ret _ |- _ =>
               apply Header_Set_Ret_inv in E; destruct E as (? & E & ->);
               rewrite canonical_Date in *
           end;
    repeat split; intros k Hk; simpl;
    try match goal with
        | E : Header _ = MapHeader _ |- _ => rewrite E
        end;
    rewrite ?lookup_MapHeader; now rewrite ?lookup_insert_ne.
Qed.

(** X6. [Do] reads the clock at most once and first, calls the signer at
    most once, and calls the transport at most once, only after a call
    of the signer that returned a nil error and on the request that call
    returned. *)
Theorem Do_trace_shape (c : Client S) (req : Request S) :
  traceShape (trace (Do DefaultClient c req)).
Proof.
  rewrite Do_split.
  destruct (returnsEarly req); [apply shape_untimed, shape_none|].
  unfold Do_pipeline.
  repeat case_match; simpl; simplify_eq;
    first [ apply shape_timed | apply shape_untimed ];
    first [ apply shape_none | apply shape_signed | apply shape_sent ].
Qed.

(** X7. Whatever is sent is what the signer returned with a nil error, and
    [Do] returns the transport's response and error as they are, with
    no wrapping; the transport is the client's own when it has one, else
    the default one. *)
Theorem Do_transport_verbatim (c : Client S) (req r : Request S) :
  In (EvSend r) (trace (Do DefaultClient c req)) ->
  (exists r0, In (EvSign r0 (Ret (r, None))) (trace (Do DefaultClient c req))) /\
  final (Do DefaultClient c req) = r /\
  outcome (Do DefaultClient c req)
  = Returned (HttpClient_Do (transportOf DefaultClient c) r).1
             (HttpClient_Do (transportOf DefaultClient c) r).2.
Proof.
  rewrite Do_split. destruct (returnsEarly req); [intros []|].
  unfold Do_pipeline, transportOf.
  repeat case_match; simpl; intros Hin; simplify_eq; in_cases Hin;
    (split; [eexists; simpl; eauto|]); (split; [reflexivity|]);
    match goal with
    | E : HttpClient_Do _ _ = _ |- _ => rewrite E
    end; reflexivity.
Qed.

(** X8. A client that has its own transport never uses the default one:
    [Do] does the same whatever [http.DefaultClient] is. *)
Theorem Do_own_transport (DefaultClient' : HttpClient S) (c : Client S)
        (req : Request S) (h : HttpClient S) :
  Client_Client c = Some h ->
  Do DefaultClient c req = Do DefaultClient' c req.
Proof.
  intros Hc. rewrite !Do_split. destruct (returnsEarly req); [reflexivity|].
  unfold Do_pipeline. rewrite Hc. reflexivity.
Qed.

(** X9. An error that [Do] returns is either the signer's, wrapped, with a
    nil response and nothing sent, or the one the transport answered
    for a request that was sent. *)
Theorem Do_returned_error_origin (c : Client S) (req : Request S)
        (resp : option Response) (err : error) :
  outcome (Do DefaultClient c req) = Returned resp (Some err) ->
  (exists r1 r2 e, In (EvSign r1 (Ret (r2, Some e))) (trace (Do DefaultClient c req)) /\
                   err = "sign request: " +:+ e /\ resp = None /\
                   neverSent (trace (Do DefaultClient c req))) \/
  (exists r, In (EvSend r) (trace (Do DefaultClient c req)) /\
             HttpClient_Do (transportOf DefaultClient c) r = (resp, Some err)).
Proof.
  rewrite Do_split. destruct (returnsEarly req); [discriminate|].
  unfold Do_pipeline, transportOf, neverSent, Errorf.
  repeat case_match; simpl; intros Ho; simplify_eq.
  all: first
    [ left; do 3 eexists; split; [simpl; eauto|];
      split; [reflexivity|]; split; [reflexivity|];
      intros r Hr; in_cases Hr
    | right; eexists; split; [simpl; eauto|]; assumption ].
Qed.

End DoMore.

(** ** A client that signs with a Signer *)

Section DoWithSigner.

Context {S : Type} `{Seeker S}.
Variable Service : Type.
Variable Service_Sign : option Service -> Request S -> Keys -> result (Request S).
Variable DefaultClient : HttpClient S.

(** [Signer.Sign] panics or returns a nil error. *)
Lemma Signer_Sign_nil_or_panic (g : Globals Service) (s : Signer Service)
      (req : Request S) :
  (exists msg, Signer_Sign Service_Sign g s req = Panic msg) \/
  (exists r, Signer_Sign Service_Sign g s req = Ret (r, None)).
Proof. unfold Signer_Sign. repeat case_match; eauto. Qed.

(** X10. With the [Sign] method of a [Signer] as the client's signer, [Do]
    never returns a ["sign request: "] error: every error it returns is
    the transport's answer for a request that was sent. When neither the
    signer nor the package has keys, every call of the signer panics on
    the nil keys and nothing is ever sent. *)
Theorem Do_with_Signer (g : Globals Service) (s : Signer Service)
        (c : Client S) (req : Request S) :
  usesSigner Service_Sign g s c ->
  (forall r1 r2 e,
     ~ In (EvSign r1 (Ret (r2, Some e))) (trace (Do DefaultClient c req))) /\
  (forall resp err,
     outcome (Do DefaultClient c req) = Returned resp (Some err) ->
     exists r, In (EvSend r) (trace (Do DefaultClient c req)) /\
               HttpClient_Do (transportOf DefaultClient c) r = (resp, Some err)) /\
  (Signer_Keys s = None -> DefaultKeys g = None ->
   neverSent (trace (Do DefaultClient c req)) /\
   forall r res, In (EvSign r res) (trace (Do DefaultClient c req)) ->
                 res = Panic nilDeref).
Proof.
  unfold usesSigner. intros Hs.
  assert (Hne : forall r r2 e, Signer_Sign Service_Sign g s r <> Ret (r2, Some e)).
  { intros r r2 e.
    destruct (Signer_Sign_nil_or_panic g s r) as [[m ->]|[r' ->]]; congruence. }
  split; [|split].
  - intros r1 r2 e Hin.
    destruct (Do_EvSign_inv DefaultClient c req r1 _ Hin) as (sign & Hsign & Hr).
    rewrite Hs in Hsign. injection Hsign as <-. exact (Hne _ _ _ Hr).
  - intros resp err. rewrite Do_split.
    destruct (returnsEarly req); [discriminate|].
    unfold Do_pipeline, transportOf. rewrite Hs.
    repeat case_match; simpl; intros Ho; simplify_eq;
      try (exfalso; eapply Hne; eassumption);
      eexists; (split; [simpl; eauto|]); assumption.
  - intros Hk Hd.
    assert (Hp : forall r, Signer_Sign Service_Sign g s r = Panic nilDeref).
    { intros r. unfold Signer_Sign. now rewrite Hk, Hd. }
    rewrite Do_split. destruct (returnsEarly req);
      [split; [intros r Hr|intros r res Hr]; destruct Hr|].
    unfold Do_pipeline, neverSent. rewrite Hs.
    repeat case_match; simpl; simplify_eq;
      try match goal with
          | E : Signer_Sign _ _ _ _ = Ret _ |- _ => rewrite Hp in E; discriminate E
          end;
      (split; [intros r Hr; in_cases Hr|intros r res Hr; in_cases Hr]);
      match goal with
      | E : Signer_Sign _ _ _ ?r = Panic _ |- _ => rewrite Hp in E; exact (eq_sym E)
      end.
Qed.

End DoWithSigner.

(** ** Get and Put through the constructor *)

Section GetPutMore.

Context {S : Type} `{Seeker S}.
Variable url_Parse : string -> option error.
Variable DefaultClient : HttpClient S.

(** X11. [Get] never probes: for a URL the parser accepts and a client
    with a clock and a signer, it reads the clock and shows the signer a
    request with method ["GET"], a nil body, a declared length of 0 and
    the [Date] header as its only header. *)
Theorem Get_dates_and_signs (c : Client S) (url : string) (now : unit -> Time)
        (sign : Request S -> result (Request S * option error)) :
  url_Parse url = None ->
  Client_Time c = Some now -> Client_Sign c = Some sign ->
  Time_inRange (now tt) ->
  let req1 := mkRequest "GET" url
                (MapHeader {["Date" := [Format_TimeFormat (now tt)]]}) None 0 in
  exists rest, (Get url_Parse DefaultClient c url).2
               = EvTime (now tt) :: EvSign req1 (sign req1) :: rest.
Proof.
  intros Hu Ht Hs _ req1. unfold Get, NewRequest. rewrite Hu. simpl.
  unfold Do, Do_pipeline, Header_has; simpl.
  rewrite !lookup_empty, Ht, Hs. unfold set_Header; simpl.
  rewrite canonical_Date, insert_empty. fold req1.
  destruct (sign req1) as [[req' [e|]]|msg]; simpl; eauto.
  match goal with
  | |- context [HttpClient_Do ?h req'] => destruct (HttpClient_Do h req')
  end; simpl; eauto.
Qed.

(** X12. The zero-value client never yields a response: [Put] calls nothing
    outside the package, and [Get] returns the parser's error, as it is,
    for a URL the parser rejects and panics on the nil clock for every
    other URL. *)
Theorem zeroClient_never_responds (url : string) (body : option (IoReader S)) :
  (Put url_Parse DefaultClient zeroClient url body).2 = [] /\
  (forall resp err,
     (Put url_Parse DefaultClient zeroClient url body).1 <> Returned (Some resp) err) /\
  (url_Parse url = None ->
   Get url_Parse DefaultClient zeroClient url = (Panicked nilDeref, [])) /\
  (forall e, url_Parse url = Some e ->
   Get url_Parse DefaultClient zeroClient url = (Returned None (Some e), [])).
Proof.
  assert (Hz : forall req,
             trace (Do DefaultClient zeroClient req) = [] /\
             forall resp err,
               outcome (Do DefaultClient zeroClient req) <> Returned (Some resp) err).
  { intros req. rewrite Do_split. destruct (returnsEarly req); [now split|].
    unfold Do_pipeline, zeroClient; simpl.
    repeat case_match; simplify_eq; now split. }
  split; [|split; [|split]].
  - unfold Put. destruct (NewRequest _ _ _ _); simpl; [apply Hz|reflexivity].
  - intros resp err. unfold Put.
    destruct (NewRequest _ _ _ _); simpl; [apply Hz|discriminate].
  - intros Hu. unfold Get, NewRequest. rewrite Hu. reflexivity.
  - intros e Hu. unfold Get, NewRequest. rewrite Hu. reflexivity.
Qed.

(** X13. [Put] of a reader without a [Close] method never seeks in it: the
    signer is shown a body that cannot seek and the length the
    constructor recorded, 0 when it recorded none. *)
Theorem Put_without_Close (c : Client S) (url : string) (b : IoReader S)
        (r : Request S) (res : result (Request S * option error)) :
  has_Close b = false ->
  In (EvSign r res) (Put url_Parse DefaultClient c url (Some b)).2 ->
  Body r = Some Unseekable /\ ContentLength r = default 0 (known_Len b).
Proof.
  intros Hb. unfold Put, NewRequest.
  destruct (url_Parse url); simpl; [intros []|]. rewrite Hb.
  set (req := mkRequest _ _ _ _ _).
  assert (Hp : probed req = None).
  { unfold probed, req; simpl. now destruct (_ =? 0). }
  rewrite Do_split, (returnsEarly_unprobed _ Hp), (prepared_unprobed _ Hp).
  unfold Do_pipeline.
  repeat case_match; simpl; intros Hin; simplify_eq; in_cases Hin; now split.
Qed.

End GetPutMore.

(** ** Instances of the further properties *)

Lemma findLen_error_iff_witness :
  findLen ThePipe = (ThePipe, (0, Some ("cannot seek: " +:+ "seek |0: illegal seek"))).
Proof.
  apply (proj2 (findLen_error_iff ThePipe ThePipe 0
                  ("cannot seek: " +:+ "seek |0: illegal seek"))).
  split; [reflexivity|].
  left. exists 0, "seek |0: illegal seek". split; reflexivity.
Defined.

Lemma findLen_lawful_witness :
  let s := mkReader "hello, world" 5 in
  wf s /\ findLen s = (s, (7, None)) /\
  7 = extent s - position s /\ 0 <= 7 <= int64_max /\
  position s = position s /\ extent s = extent s /\ wf s.
Proof.
  assert (Hwf : wf (mkReader "hello, world" 5))
    by (unfold wf, Reader_Lawful, Reader_wf, Reader_Len, int64_max; simpl; lia).
  split; [exact Hwf|]. split; [reflexivity|].
  exact (findLen_lawful (mkReader "hello, world" 5) (mkReader "hello, world" 5) 7
           Hwf eq_refl).
Defined.

(** A reader one byte in, on which a rune was read last. *)
Lemma findLen_Reader_witness :
  Reader_wf (mkReaderAt "hello, world" 1 0) /\
  findLen (mkReaderAt "hello, world" 1 0) =
  (mkReaderAt "hello, world" 1 (-1),
   if 1 >? 12 then (0, Some pastEnd) else (12 - 1, None)).
Proof.
  assert (Hwf : Reader_wf (mkReaderAt "hello, world" 1 0))
    by (unfold Reader_wf, Reader_Len, int64_max; simpl; lia).
  split; [exact Hwf|].
  exact (findLen_Reader (mkReaderAt "hello, world" 1 0) Hwf).
Defined.


Lemma Do_signer_sees_frame_witness :
  let res := Signer_Sign testSign testGlobals DefaultSigner exampleDated in
  In (EvSign exampleDated res) (trace (Do transport500 testClient exampleReq)) /\
  Method exampleDated = Method exampleReq /\ URL exampleDated = URL exampleReq /\
  (forall k, k <> "Date" -> Header exampleDated !! k = Header exampleReq !! k).
Proof.
  intros res.
  assert (Hin : In (EvSign exampleDated res)
                   (trace (Do transport500 testClient exampleReq)))
    by (right; left; reflexivity).
  split; [exact Hin|].
  exact (Do_signer_sees_frame transport500 testClient exampleReq exampleDated res Hin).
Defined.

Lemma Do_transport_verbatim_witness :
  let r := final (Do transport500 testClient exampleReq) in
  In (EvSend r) (trace (Do transport500 testClient exampleReq)) /\
  (exists r0, In (EvSign r0 (Ret (r, None)))
                 (trace (Do transport500 testClient exampleReq))) /\
  final (Do transport500 testClient exampleReq) = r /\
  outcome (Do transport500 testClient exampleReq)
  = Returned (HttpClient_Do (transportOf transport500 testClient) r).1
             (HttpClient_Do (transportOf transport500 testClient) r).2.
Proof.
  intros r.
  assert (Hin : In (EvSend r) (trace (Do transport500 testClient exampleReq)))
    by (right; right; left; reflexivity).
  split; [exact Hin|].
  exact (Do_transport_verbatim transport500 testClient exampleReq r Hin).
Defined.

Lemma Do_own_transport_witness :
  Client_Client (@testClient Reader) = Some transport200 /\
  Do transport500 testClient exampleReq = Do transportDown testClient exampleReq.
Proof.
  split; [reflexivity|].
  exact (Do_own_transport transport500 transportDown testClient exampleReq
           transport200 eq_refl).
Defined.

Lemma Do_returned_error_origin_witness :
  outcome (Do transport500 downClient exampleReq)
  = Returned None (Some "dial tcp: connection refused") /\
  ((exists r1 r2 e,
       In (EvSign r1 (Ret (r2, Some e))) (trace (Do transport500 downClient exampleReq)) /\
       "dial tcp: connection refused" = "sign request: " +:+ e /\ @None Response = None /\
       neverSent (trace (Do transport500 downClient exampleReq))) \/
   (exists r, In (EvSend r) (trace (Do transport500 downClient exampleReq)) /\
              HttpClient_Do (transportOf transport500 downClient) r
              = (None, Some "dial tcp: connection refused"))).
Proof.
  split; [reflexivity|].
  exact (Do_returned_error_origin transport500 downClient exampleReq None
           "dial tcp: connection refused" eq_refl).
Defined.

Lemma Do_with_Signer_witness :
  usesSigner testSign testGlobals DefaultSigner (@testClient Reader) /\
  (forall r1 r2 e,
     ~ In (EvSign r1 (Ret (r2, Some e))) (trace (Do transport500 testClient exampleReq))).
Proof.
  assert (Hu : usesSigner testSign testGlobals DefaultSigner (@testClient Reader))
    by reflexivity.
  split; [exact Hu|].
  exact (proj1 (Do_with_Signer TestService testSign transport500 testGlobals
                  DefaultSigner testClient exampleReq Hu)).
Defined.

Lemma Get_dates_and_signs_witness :
  let req1 := mkRequest "GET" testURL
                (MapHeader {["Date" := [Format_TimeFormat (fixedClock tt)]]}) None 0 in
  Time_inRange (fixedClock tt) /\
  exists rest,
    (Get (fun _ => None) transport500 (@testClient Reader) testURL).2
    = EvTime (fixedClock tt)
      :: EvSign req1 (Signer_Sign testSign testGlobals DefaultSigner req1) :: rest.
Proof.
  assert (Hr : Time_inRange (fixedClock tt))
    by (unfold Time_inRange; simpl; lia).
  split; [exact Hr|].
  exact (Get_dates_and_signs (fun _ => None) transport500 (@testClient Reader) testURL
           fixedClock (Signer_Sign testSign testGlobals DefaultSigner)
           eq_refl eq_refl eq_refl Hr).
Defined.

Lemma zeroClient_never_responds_witness :
  Get (fun _ => None) transport500 (@zeroClient Reader) testURL = (Panicked nilDeref, []) /\
  Get (fun _ => Some "missing protocol scheme") transport500 (@zeroClient Reader) ":"
  = (Returned None (Some "missing protocol scheme"), []).
Proof.
  split.
  - exact (proj1 (proj2 (proj2 (zeroClient_never_responds (fun _ => None) transport500
                                  testURL (Some helloFile)))) eq_refl).
  - exact (proj2 (proj2 (proj2 (zeroClient_never_responds
                                  (fun _ => Some "missing protocol scheme") transport500
                                  ":" (Some helloFile)))) _ eq_refl).
Defined.

Lemma Put_without_Close_witness :
  let r := mkRequest "GET" testURL
             (MapHeader {["Date" := [Format_TimeFormat fixedInstant]]})
             (Some Unseekable) 12 in
  let res := Signer_Sign testSign testGlobals DefaultSigner r in
  has_Close helloString = false /\
  In (EvSign r res)
     (Put (fun _ => None) transport500 testClient testURL (Some helloString)).2 /\
  Body r = Some Unseekable /\ ContentLength r = default 0 (known_Len helloString).
Proof.
  intros r res.
  assert (Hin : In (EvSign r res)
                   (Put (fun _ => None) transport500 testClient testURL
                        (Some helloString)).2)
    by (right; left; reflexivity).
  split; [reflexivity|]. split; [exact Hin|].
  exact (Put_without_Close (fun _ => None) transport500 testClient testURL helloString
           r res eq_refl Hin).
Defined.

Lemma Do_keeps_date_witness :
  (is_Some (Header amzDateReq !! "Date") \/ is_Some (Header amzDateReq !! "X-Amz-Date")) /\
  (forall t, ~ In (EvTime t) (trace (Do transport500 testClient amzDateReq))) /\
  (forall r res, In (EvSign r res) (trace (Do transport500 testClient amzDateReq)) ->
                 Header r = Header amzDateReq).
Proof.
  assert (Hh : is_Some (Header amzDateReq !! "Date") \/
               is_Some (Header amzDateReq !! "X-Amz-Date"))
    by (right; eexists; reflexivity).
  split; [exact Hh|].
  exact (Do_keeps_date transport500 testClient amzDateReq Hh).
Defined.

Lemma Do_sets_Date_witness :
  let req1 := set_Header (prepared exampleReq)
                (MapHeader (<["Date" := [Format_TimeFormat (fixedClock tt)]]>
                              {["X-Amz-Acl" := ["public-read"]]})) in
  Time_inRange (fixedClock tt) /\
  (Header req1 !! "Date" = Some ["Sun, 06 Nov 1994 08:49:37 GMT"] /\
   exists rest, trace (Do transport500 testClient exampleReq)
                = EvTime (fixedClock tt)
                  :: EvSign req1 (Signer_Sign testSign testGlobals DefaultSigner req1)
                  :: rest) /\
  (outcome (Do transport500 testClient nilHeaderReq) = Panicked nilMapAssign /\
   trace (Do transport500 testClient nilHeaderReq) = [EvTime (fixedClock tt)]).
Proof.
  assert (Hr : Time_inRange (fixedClock tt))
    by (unfold Time_inRange; simpl; lia).
  split; [exact Hr|]. split.
  - exact (proj1 (Do_sets_Date transport500 testClient exampleReq fixedClock
                    (Signer_Sign testSign testGlobals DefaultSigner)
                    eq_refl eq_refl eq_refl eq_refl eq_refl Hr) _ eq_refl).
  - exact (proj2 (Do_sets_Date transport500 testClient nilHeaderReq fixedClock
                    (Signer_Sign testSign testGlobals DefaultSigner)
                    eq_refl eq_refl eq_refl eq_refl eq_refl Hr) eq_refl).
Defined.
